(** * Keras Tuner: trial orchestration core

    A shallow embedding of the orchestration code of the tuner
    (engine/oracle.py, engine/hypertuner.py, engine/instance.py,
    tuners/multiple_executions_tuner.py, utils.py, states/hoststate.py)
    together with the properties of its specification.

    Python dictionaries are finite maps ([gmap]) where only lookups matter
    and association lists where insertion order is observable; floats are
    IEEE 754 doubles; mutation of [self] is explicit state passing; a raised
    exception is the left summand of a result.  The calls from
    engine/hypertuner.py into the [Instance] class are modelled by the
    binding of their arguments to the signatures of engine/instance.py. *)

From Stdlib Require Import ZArith QArith Qround String Ascii List Lia Bool Floats.
From stdpp Require Import gmap strings list fin_maps pretty.

Set Warnings "-register-all,-inexact-float".

Local Open Scope string_scope.
Local Open Scope list_scope.
Local Open Scope Z_scope.

(** ** Python exceptions and results *)

Inductive Exn : Type :=
| NameError (name : string)
| UnboundLocalError (name : string)
| TypeError (msg : string)
| ValueError (msg : string)
| KeyError (key : string)
| Raised (what : string).

(** A computation that returns normally ([inr]) or raises ([inl]). *)
Definition Res (A : Type) : Type := (Exn + A)%type.

Definition ret {A} (a : A) : Res A := inr a.
Definition raise {A} (e : Exn) : Res A := inl e.
Definition bind {A B} (m : Res A) (k : A -> Res B) : Res B :=
  match m with
  | inl e => inl e
  | inr a => k a
  end.

Notation "'do' x <- m ; k" := (bind m (fun x => k))
  (at level 10, x name, m at level 100, k at level 200).

(** A key metric is a pair [(metric_name, direction)] whose direction is
    ['min'] or ['max']; the tuner drops any other before it stores them. *)
Inductive Direction : Type := Min | Max.

#[global] Instance Direction_eq_dec : EqDecision Direction.
Proof. solve_decision. Defined.

(** * Part I: the embedding *)

(** ** The xxHash library: XXH64 with seed 0, as [xxh64(data).hexdigest()] *)

Module XXHash.

Definition PRIME64_1 : Z := 0x9E3779B185EBCA87.
Definition PRIME64_2 : Z := 0xC2B2AE3D27D4EB4F.
Definition PRIME64_3 : Z := 0x165667B19E3779F9.
Definition PRIME64_4 : Z := 0x85EBCA77C2B2AE63.
Definition PRIME64_5 : Z := 0x27D4EB2F165667C5.

(** 64-bit unsigned arithmetic with wrap-around. *)
Definition wrap64 (x : Z) : Z := x mod 2 ^ 64.
Definition add64 (a b : Z) : Z := wrap64 (a + b).
Definition sub64 (a b : Z) : Z := wrap64 (a - b).
Definition mul64 (a b : Z) : Z := wrap64 (a * b).
Definition rotl64 (x r : Z) : Z :=
  Z.lor (wrap64 (Z.shiftl x r)) (Z.shiftr x (64 - r)).

Definition round64 (acc input : Z) : Z :=
  mul64 (rotl64 (add64 acc (mul64 input PRIME64_2)) 31) PRIME64_1.

Definition merge_round (acc val : Z) : Z :=
  add64 (mul64 (Z.lxor acc (round64 0 val)) PRIME64_1) PRIME64_4.

(** Little-endian read of a few bytes. *)
Fixpoint read_le (bs : list Z) : Z :=
  match bs with
  | [] => 0
  | b :: bs' => b + 256 * read_le bs'
  end.

(** The UTF-8 encoding of a text, a character being a code point below
    256: one byte below 128, two bytes from there. *)
Definition bytes_of (s : string) : list Z :=
  List.flat_map (fun c =>
                   let n := Z.of_N (N_of_ascii c) in
                   if n <? 128 then [n] else [192 + n / 64; 128 + n mod 64])
                (list_ascii_of_string s).

(** The four accumulators over the 32-byte stripes; what is left over
    (fewer than 32 bytes) is returned with them. *)
Fixpoint stripes (fuel : nat) (bs : list Z) (v : Z * Z * Z * Z)
  : (Z * Z * Z * Z) * list Z :=
  match fuel with
  | O => (v, bs)
  | S fuel' =>
      if (Z.of_nat (List.length bs) <? 32) then (v, bs)
      else
        let '(v1, v2, v3, v4) := v in
        let v1 := round64 v1 (read_le (firstn 8 bs)) in
        let v2 := round64 v2 (read_le (firstn 8 (skipn 8 bs))) in
        let v3 := round64 v3 (read_le (firstn 8 (skipn 16 bs))) in
        let v4 := round64 v4 (read_le (firstn 8 (skipn 24 bs))) in
        stripes fuel' (skipn 32 bs) (v1, v2, v3, v4)
  end.

(** The tail: 8-byte lanes, then one 4-byte lane, then single bytes. *)
Fixpoint tail8 (fuel : nat) (bs : list Z) (h : Z) : Z * list Z :=
  match fuel with
  | O => (h, bs)
  | S fuel' =>
      if (Z.of_nat (List.length bs) <? 8) then (h, bs)
      else
        let k1 := round64 0 (read_le (firstn 8 bs)) in
        let h := add64 (mul64 (rotl64 (Z.lxor h k1) 27) PRIME64_1) PRIME64_4 in
        tail8 fuel' (skipn 8 bs) h
  end.

Definition tail4 (bs : list Z) (h : Z) : Z * list Z :=
  if (Z.of_nat (List.length bs) <? 4) then (h, bs)
  else
    let h := Z.lxor h (mul64 (read_le (firstn 4 bs)) PRIME64_1) in
    (add64 (mul64 (rotl64 h 23) PRIME64_2) PRIME64_3, skipn 4 bs).

Fixpoint tail1 (bs : list Z) (h : Z) : Z :=
  match bs with
  | [] => h
  | b :: bs' =>
      tail1 bs' (mul64 (rotl64 (Z.lxor h (mul64 b PRIME64_5)) 11) PRIME64_1)
  end.

Definition avalanche (h : Z) : Z :=
  let h := Z.lxor h (Z.shiftr h 33) in
  let h := mul64 h PRIME64_2 in
  let h := Z.lxor h (Z.shiftr h 29) in
  let h := mul64 h PRIME64_3 in
  Z.lxor h (Z.shiftr h 32).

Definition xxh64_bytes (seed : Z) (bs : list Z) : Z :=
  let len := Z.of_nat (List.length bs) in
  let '(h, rest) :=
    if (len <? 32) then (add64 seed PRIME64_5, bs)
    else
      let '((v1, v2, v3, v4), rest) :=
        stripes (List.length bs) bs
                (add64 (add64 seed PRIME64_1) PRIME64_2,
                 add64 seed PRIME64_2, wrap64 seed, sub64 seed PRIME64_1) in
      let h := add64 (add64 (rotl64 v1 1) (rotl64 v2 7))
                     (add64 (rotl64 v3 12) (rotl64 v4 18)) in
      (merge_round (merge_round (merge_round (merge_round h v1) v2) v3) v4, rest)
  in
  let h := add64 h len in
  let '(h, rest) := tail8 (List.length rest) rest h in
  let '(h, rest) := tail4 rest h in
  avalanche (tail1 rest h).

Definition hex_digit (d : Z) : ascii :=
  ascii_of_N (Z.to_N (if d <? 10 then 48 + d else 87 + d)).

(** [n] hexadecimal digits of [x], most significant first. *)
Fixpoint hex_digits (n : nat) (x : Z) : string :=
  match n with
  | O => EmptyString
  | S n' => String (hex_digit (Z.shiftr x (4 * Z.of_nat n') mod 16)) (hex_digits n' x)
  end.

(** [xxh64(s).hexdigest()] *)
Definition xxh64_hexdigest (s : string) : string :=
  hex_digits 16 (xxh64_bytes 0 (bytes_of s)).

End XXHash.

(** ** [repr] of a float: the shortest decimal that reads back as it *)

Module FloatRepr.

(** The fraction [a / b] divided by [2 ^ e]. *)
Definition scaled (a b e : Z) : Z * Z :=
  if 0 <=? e then (a, b * 2 ^ e) else (a * 2 ^ (- e), b).

(** [a / b] rounded to the nearest integer, to the even one at a tie. *)
Definition round_half_even (a b : Z) : Z :=
  let q := a / b in
  match 2 * (a mod b) ?= b with
  | Lt => q
  | Gt => q + 1
  | Eq => if Z.even q then q else q + 1
  end.

(** The double nearest to the positive fraction [a / b], as a mantissa and
    an exponent of 2: [None] when it overflows, a mantissa of 0 when it
    underflows. *)
Definition nearest (a b : Z) : option (Z * Z) :=
  let e0 := Z.log2 a - Z.log2 b - 52 in
  let m0 := fst (scaled a b e0) / snd (scaled a b e0) in
  let e1 := if 2 ^ 53 <=? m0 then e0 + 1 else if m0 <? 2 ^ 52 then e0 - 1 else e0 in
  let e := Z.max e1 (-1074) in
  let m := round_half_even (fst (scaled a b e)) (snd (scaled a b e)) in
  let '(m, e) := if m =? 2 ^ 53 then (2 ^ 52, e + 1) else (m, e) in
  if 971 <? e then None else Some (m, e).

(** [d * 10 ^ k] as a fraction. *)
Definition decimal (d k : Z) : Z * Z :=
  if 0 <=? k then (d * 10 ^ k, 1) else (d, 10 ^ (- k)).

(** Whether the decimal [d * 10 ^ k] reads back as the double [m * 2 ^ e]. *)
Definition reads_back (m e d k : Z) : bool :=
  match nearest (fst (decimal d k)) (snd (decimal d k)) with
  | Some (m', e') => (m' =? m) && (e' =? e)
  | None => false
  end.

(** Whether [10 ^ k <= a / b]. *)
Definition at_least_pow10 (a b k : Z) : bool :=
  if 0 <=? k then 10 ^ k * b <=? a else b <=? a * 10 ^ (- k).

(** The largest [k] with [10 ^ k <= a / b]. *)
Definition log10_floor (a b : Z) : Z :=
  let est := (Z.log2 a - Z.log2 b) * 30103 / 100000 in
  default (est - 3)
    (head (filter (fun k => at_least_pow10 a b k)
                  [est + 2; est + 1; est; est - 1; est - 2])).

(** With [n] digits: the decimal nearest to [m * 2 ^ e] among those that
    read back as it, and its exponent of 10. *)
Definition with_digits (m e : Z) (n : Z) : option (Z * Z) :=
  let '(a, b) := scaled m 1 (- e) in
  let k := log10_floor a b - n + 1 in
  let '(a', b') := if 0 <=? k then (a, b * 10 ^ k) else (a * 10 ^ (- k), b) in
  let lo := a' / b' in
  let hi := lo + 1 in
  let lo_ok := reads_back m e lo k in
  let hi_ok := reads_back m e hi k in
  match lo_ok, hi_ok with
  | false, false => None
  | true, false => Some (lo, k)
  | false, true => Some (hi, k)
  | true, true =>
      match 2 * (a' mod b') ?= b' with
      | Lt => Some (lo, k)
      | Gt => Some (hi, k)
      | Eq => Some (if Z.even lo then lo else hi, k)
      end
  end.

Fixpoint shortest_from (m e : Z) (n : Z) (fuel : nat) : Z * Z :=
  match fuel with
  | O => (m, 0)
  | S fuel' =>
      match with_digits m e n with
      | Some dk => dk
      | None => shortest_from m e (n + 1) fuel'
      end
  end.

(** A decimal without trailing zeros. *)
Fixpoint strip_zeros (fuel : nat) (d k : Z) : Z * Z :=
  match fuel with
  | O => (d, k)
  | S fuel' => if (d mod 10 =? 0) && negb (d =? 0) then strip_zeros fuel' (d / 10) (k + 1) else (d, k)
  end.

(** The shortest decimal that reads back as [m * 2 ^ e]: its digits and
    the position of its decimal point. *)
Definition shortest (m e : Z) : string * Z :=
  let '(d, k) := shortest_from m e 1 17 in
  let '(d, k) := strip_zeros 20 d k in
  let digits := pretty d in
  (digits, Z.of_nat (String.length digits) + k).

Definition zeros (n : Z) : string :=
  string_of_list_ascii (replicate (Z.to_nat n) "0"%char).

Definition take_string (n : Z) (s : string) : string :=
  string_of_list_ascii (take (Z.to_nat n) (list_ascii_of_string s)).
Definition drop_string (n : Z) (s : string) : string :=
  string_of_list_ascii (drop (Z.to_nat n) (list_ascii_of_string s)).

(** [repr] of a positive finite double from its digits and its decimal
    point: with an exponent when the point is more than 16 places to the
    right of the first digit or 4 or more to its left. *)
Definition format (digits : string) (decpt : Z) : string :=
  let n := Z.of_nat (String.length digits) in
  if (decpt <=? -4) || (16 <? decpt)
  then
    let exp := decpt - 1 in
    take_string 1 digits
    ++ (if 1 <? n then "." ++ drop_string 1 digits else "")
    ++ "e" ++ (if exp <? 0 then "-" else "+")
    ++ (if Z.abs exp <? 10 then "0" else "") ++ pretty (Z.abs exp)
  else if decpt <=? 0 then "0." ++ zeros (- decpt) ++ digits
  else if n <=? decpt then digits ++ zeros (decpt - n) ++ ".0"
  else take_string decpt digits ++ "." ++ drop_string decpt digits.

(** [repr(x)] for a float. *)
Definition repr_float (x : float) : string :=
  match Prim2SF x with
  | S754_nan => "nan"
  | S754_infinity s => if s then "-inf" else "inf"
  | S754_zero s => if s then "-0.0" else "0.0"
  | S754_finite s m e =>
      (if s then "-" else "")
      ++ format (fst (shortest (Z.pos m) e)) (snd (shortest (Z.pos m) e))
  end.

End FloatRepr.

(** ** Python values: what [model.get_config()] returns *)

Module Py.

(** A configuration is a nest of dictionaries (string keys, in insertion
    order), lists and tuples over [None], booleans, integers, floats and
    strings.  A float is an IEEE 754 double; a string is a text whose
    characters are the code points below 256. *)
Inductive PyVal : Type :=
| PyNone
| PyBool (b : bool)
| PyInt (n : Z)
| PyFloat (x : float)
| PyStr (s : string)
| PyList (xs : list PyVal)
| PyTuple (xs : list PyVal)
| PyDict (items : list (string * PyVal)).

(** [d.get(k)] on the items of a dictionary. *)
Fixpoint dict_get {V} (k : string) (items : list (string * V)) : option V :=
  match items with
  | [] => None
  | (k', v) :: rest => if String.eqb k k' then Some v else dict_get k rest
  end.

(** [x == n] for a float and an integer: the float holds exactly the
    integer. *)
Definition float_eq_int (x : float) (n : Z) : bool :=
  match Prim2SF x with
  | S754_zero _ => Z.eqb n 0
  | S754_finite s m e =>
      let v := if s then Z.neg m else Z.pos m in
      if Z.leb 0 e then Z.eqb n (v * 2 ^ e)
      else Z.eqb (v mod 2 ^ (- e)) 0 && Z.eqb n (v / 2 ^ (- e))
  | _ => false
  end.

(** [a == b]: [True == 1] and [False == 0]; numbers are compared by their
    value, so that [1 == 1.0] and [0.0 == -0.0], and a NaN is equal to
    nothing; lists and tuples are compared element by element and never
    equal each other; dictionaries are equal when they have as many keys
    and every key of the first maps to an equal value in the second,
    whatever the insertion order. *)
Fixpoint py_eq (a b : PyVal) : bool :=
  match a, b with
  | PyNone, PyNone => true
  | PyBool x, PyBool y => Bool.eqb x y
  | PyBool x, PyInt n => Z.eqb n (if x then 1 else 0)
  | PyInt n, PyBool x => Z.eqb n (if x then 1 else 0)
  | PyInt m, PyInt n => Z.eqb m n
  | PyFloat x, PyFloat y => PrimFloat.eqb x y
  | PyFloat x, PyInt n | PyInt n, PyFloat x => float_eq_int x n
  | PyFloat x, PyBool b | PyBool b, PyFloat x => float_eq_int x (if b then 1 else 0)
  | PyStr s, PyStr t => String.eqb s t
  | PyList xs, PyList ys
  | PyTuple xs, PyTuple ys =>
      (fix seq_eq (xs ys : list PyVal) : bool :=
         match xs, ys with
         | [], [] => true
         | x :: xs', y :: ys' => py_eq x y && seq_eq xs' ys'
         | _, _ => false
         end) xs ys
  | PyDict items, PyDict items' =>
      Nat.eqb (List.length items) (List.length items')
      && forallb (fun kv =>
                    match dict_get (fst kv) items' with
                    | Some v' => py_eq (snd kv) v'
                    | None => false
                    end) items
  | _, _ => false
  end.




Definition has_char (c : ascii) (s : string) : bool :=
  existsb (Ascii.eqb c) (list_ascii_of_string s).

Definition backslash : ascii := "\"%char.
Definition single_quote : ascii := "'"%char.
Definition double_quote : ascii := ascii_of_nat 34.

(** One character of the [repr] of a string quoted with [quote]: the
    quote and the backslash are escaped, and so is what is not printable
    (the control characters, the no-break space, the soft hyphen). *)
Definition repr_char (quote c : ascii) : string :=
  let n := Z.of_N (N_of_ascii c) in
  if Ascii.eqb c quote || Ascii.eqb c backslash then String backslash (String c "")
  else if Z.eqb n 9 then "\t"
  else if Z.eqb n 10 then "\n"
  else if Z.eqb n 13 then "\r"
  else if Z.ltb n 32 || (Z.leb 127 n && Z.leb n 160) || Z.eqb n 173
       then "\x" ++ XXHash.hex_digits 2 n
  else String c "".

(** [repr(s)]: single quotes, unless [s] has a single quote and no double
    quote. *)
Definition repr_str (s : string) : string :=
  let quote :=
    if has_char single_quote s && negb (has_char double_quote s)
    then double_quote else single_quote in
  String quote
    (String.concat "" (List.map (repr_char quote) (list_ascii_of_string s))
     ++ String quote "").

(** [repr(v)] *)
Fixpoint repr (v : PyVal) : string :=
  match v with
  | PyNone => "None"
  | PyBool b => if b then "True" else "False"
  | PyInt n => pretty n
  | PyFloat x => FloatRepr.repr_float x
  | PyStr s => repr_str s
  | PyList xs => "[" ++ String.concat ", " (List.map repr xs) ++ "]"
  | PyTuple xs =>
      "(" ++ String.concat ", " (List.map repr xs)
      ++ (if Nat.eqb (List.length xs) 1 then "," else "") ++ ")"
  | PyDict items =>
      "{" ++ String.concat ", "
               (List.map (fun kv => (repr_str (fst kv) ++ ": " ++ repr (snd kv))%string)
                         items)
      ++ "}"
  end.

(** [str(v)]: a string is itself, anything else is shown by [repr]. *)
Definition str (v : PyVal) : string :=
  match v with
  | PyStr s => s
  | _ => repr v
  end.

End Py.

(** ** engine/oracle.py *)

Module Oracle.

Section UpdateSpace.

(** The hyperparameter objects come from [hp_module]; the oracle reads
    nothing but their [name]. *)
Context {HP : Type} (name : HP -> string).

(** [{p.name for p in space}] *)
Definition names_of (space : list HP) : gset string :=
  list_to_set (name <$> space).

(** [Oracle.update_space]: [ref_names] is computed once, before the loop;
    each entry whose name is not in it is appended to [self.space]. *)
Definition update_space (space new_entries : list HP) : list HP :=
  let ref_names := names_of space in
  foldl (fun sp p => if decide (name p ∈ ref_names) then sp else sp ++ [p])
        space new_entries.

End UpdateSpace.

End Oracle.

(** ** engine/hypertuner.py *)

Module HyperTuner.
Import Py.

(** [sys.maxsize] on a 64-bit build. *)
Definition sys_maxsize : Z := 2 ^ 63 - 1.

(** The built-ins [min(a, b)] and [max(a, b)]: the first argument, unless
    the second is strictly smaller (larger). *)
Definition py_min (a b : Q) : Q := if Qlt_le_dec b a then b else a.
Definition py_max (a b : Q) : Q := if Qlt_le_dec a b then b else a.

Section Tuner.

(** [Model] is a Keras model, of which the tuner reads the configuration;
    [Inst] is what the [Instance] constructor returns. *)
Context {Model Inst : Type}.
Context (get_config : Model -> PyVal).

(** The fields of [self] that the methods below read or write. *)
Record Tuner : Type := mkTuner {
  max_fail_streak : Z;
  invalid_models : Z;
  collisions : Z;
  instances : gmap string Inst;
  current_instance_idx : option string;  (* [None] is the initial [-1] *)
  key_metrics : list (string * Direction);
  stats : gmap string Q;
}.

Definition set_invalid_models (v : Z) (t : Tuner) : Tuner :=
  mkTuner (max_fail_streak t) v (collisions t) (instances t)
          (current_instance_idx t) (key_metrics t) (stats t).

Definition set_collisions (v : Z) (t : Tuner) : Tuner :=
  mkTuner (max_fail_streak t) (invalid_models t) v (instances t)
          (current_instance_idx t) (key_metrics t) (stats t).

Definition register (idx : string) (i : Inst) (t : Tuner) : Tuner :=
  mkTuner (max_fail_streak t) (invalid_models t) (collisions t)
          (<[idx := i]> (instances t)) (Some idx) (key_metrics t) (stats t).

Definition set_stats (s : gmap string Q) (t : Tuner) : Tuner :=
  mkTuner (max_fail_streak t) (invalid_models t) (collisions t) (instances t)
          (current_instance_idx t) (key_metrics t) s.

(** [__init__], the part on key metrics: [stats] starts at [sys.maxsize]
    for a metric to minimise and at [-1] otherwise, a later entry of the
    same name overwriting an earlier one. *)
Definition init_stats (kms : list (string * Direction)) : gmap string Q :=
  foldl (fun s km =>
           <[fst km := match snd km with
                       | Min => inject_Z sys_maxsize
                       | Max => inject_Z (-1)
                       end]> s) ∅ kms.

(** [__compute_model_id] *)
Definition compute_model_id (model : Model) : string :=
  XXHash.xxh64_hexdigest (str (get_config model)).

(** *** get_random_instance *)

(** [model_fn] draws its hyperparameters at random: call number [n] either
    raises ([None]) or builds a model.  [new_instance] is the call
    [Instance(model, idx, ...)] of line 98, which returns the instance or
    raises (the class of engine/instance.py expects ten arguments where
    this call passes six). *)
Context (model_fn : nat -> option Model).
Context (new_instance : Model -> string -> Res Inst).

(** Where a call stands after some iterations of [while 1]: it has
    returned or raised, or it is still in the loop. *)
Inductive Outcome : Type :=
| Returned (r : Res (option Inst)) (t : Tuner) (calls : nat)
| Looping (t : Tuner) (calls : nat) (fail_streak : Z).

(** One iteration of the loop, [calls] being the number of calls of
    [model_fn] made so far.  [fail_streak] is incremented and never read. *)
Definition iteration (t : Tuner) (calls : nat) (fail_streak : Z) : Outcome :=
  let fail_streak := fail_streak + 1 in
  match model_fn calls with
  | None =>
      let t := set_invalid_models (invalid_models t + 1) t in
      if max_fail_streak t <=? invalid_models t
      then Returned (ret None) t (S calls)
      else Looping t (S calls) fail_streak
  | Some model =>
      let idx := compute_model_id model in
      match instances t !! idx with
      | None =>
          match new_instance model idx with
          | inl e => Returned (raise e) t (S calls)
          | inr i => Returned (ret (Some i)) (register idx i t) (S calls)
          end
      | Some _ => Looping (set_collisions (collisions t + 1) t) (S calls) fail_streak
      end
  end.

(** [fuel] iterations of the loop. *)
Fixpoint get_random_instance_loop (fuel : nat) (t : Tuner) (calls : nat)
  (fail_streak : Z) : Outcome :=
  match fuel with
  | O => Looping t calls fail_streak
  | S fuel' =>
      match iteration t calls fail_streak with
      | Looping t' calls' fail_streak' =>
          get_random_instance_loop fuel' t' calls' fail_streak'
      | done => done
      end
  end.

Definition get_random_instance (fuel : nat) (t : Tuner) (calls : nat) : Outcome :=
  get_random_instance_loop fuel t calls 0.

(** *** record_results *)

(** [instance.record_results(...)], the method of whatever object is
    stored in [instances]: it raises, or returns the results document, of
    which the tuner reads the numbers stored under the names of its key
    metrics. *)
Context (instance_record_results : Inst -> bool -> Res (gmap string Q)).

(** The locals of the loop over [key_metrics]: [best] and [res_val] are
    unbound until a key metric is found in the results. *)
Record Locals : Type := mkLocals {
  l_stats : gmap string Q;
  l_best : option Q;
  l_res_val : option Q;
  l_report : list (string * Q * Q);
}.

(** The body of [for km in self.key_metrics]; an exception leaves the
    statistics as they are at that point. *)
Definition record_metric (results : gmap string Q) (km : string * Direction)
  (l : Locals) : Locals * Res unit :=
  let metric_name := fst km in
  let l1 : Locals * Res unit :=
    match results !! metric_name with
    | None => (l, ret tt)
    | Some res_val =>
        match l_stats l !! metric_name with
        | None => (l, raise (KeyError metric_name))
        | Some current_best =>
            let best := match snd km with
                        | Min => py_min current_best res_val
                        | Max => py_max current_best res_val
                        end in
            (mkLocals (<[metric_name := best]> (l_stats l)) (Some best)
                      (Some res_val) (l_report l), ret tt)
        end
    end in
  match l1 with
  | (l, inl e) => (l, inl e)
  | (l, inr _) =>
      match l_best l, l_res_val l with
      | Some best, Some res_val =>
          (mkLocals (l_stats l) (l_best l) (l_res_val l)
                    (l_report l ++ [(metric_name, best, res_val)]), ret tt)
      | None, _ => (l, raise (UnboundLocalError "best"))
      | _, None => (l, raise (UnboundLocalError "res_val"))
      end
  end.

Fixpoint record_metrics (results : gmap string Q) (kms : list (string * Direction))
  (l : Locals) : Locals * Res unit :=
  match kms with
  | [] => (l, ret tt)
  | km :: kms' =>
      match record_metric results km l with
      | (l', inl e) => (l', inl e)
      | (l', inr _) => record_metrics results kms' l'
      end
  end.

(** [record_results(save_models, idx)]: the tuner afterwards, and the rows
    of the report it prints or the exception. *)
Definition record_results (save_models : bool) (idx : option string) (t : Tuner)
  : Tuner * Res (list (string * Q * Q)) :=
  let key := match idx with
             | None | Some "" => current_instance_idx t
             | Some i => Some i
             end in
  match key ≫= (fun k => instances t !! k) with
  | None => (t, raise (KeyError (default "-1" key)))
  | Some instance =>
      match instance_record_results instance save_models with
      | inl e => (t, inl e)
      | inr results =>
          let '(l, r) := record_metrics results (key_metrics t)
                           (mkLocals (stats t) None None []) in
          (set_stats (l_stats l) t,
           match r with inl e => inl e | inr _ => ret (l_report l) end)
      end
  end.

End Tuner.

End HyperTuner.

(** ** engine/instance.py *)

Module Instance.

(** [os.path.join(a, b)] *)
Definition path_join (a b : string) : string :=
  match b with
  | String "/" _ => b
  | _ =>
      match last (list_ascii_of_string a) with
      | None => b
      | Some "/"%char => (a ++ b)%string
      | Some _ => (a ++ "/" ++ b)%string
      end
  end.

(** What a call of [record_results] leaves outside the instance. *)
Inductive Event : Type :=
| FileWrite (path content : string)
| SaveWeights (path : string)
| CloudSave (category architecture instance : string)
            (execution training_size : option Z) (local_path : string)
            (gs_dir : option string).

Section Instance.

(** [num] is the type of a metric value (a float); [Model] a Keras model,
    [Loss] what its [loss] and [loss_weights] hold; [History] and
    [FitResults] what an execution keeps and returns of a training run. *)
Context {num Model Loss HParams History FitResults X Y Kwargs : Type}.

(** numpy's reductions of a list of values. *)
Context (np_min np_max np_mean np_median : list num -> num).

Context (to_json : Model -> string).
Context (model_loss model_loss_weights : Model -> Loss).

(** The attributes of an [InstanceExecution] that the instance reads;
    [metrics] maps a metric name to its ['min'] and ['max'] over the
    epochs. *)
Record Execution : Type := mkExecution {
  e_model : Model;
  e_ts : Z;
  num_epochs : Z;
  history : History;
  metrics : gmap string (num * num);
}.

(** The attributes that [__init__] sets for good. *)
Record Config : Type := mkConfig {
  idx : string;
  model : Model;
  hyper_parameters : HParams;
  model_name : string;
  num_gpu : Z;
  batch_size : Z;
  display_model : string;
  ts : Z;
  model_size : Z;
  key_metrics : list (string * Direction);
  local_dir : string;
  gs_dir : option string;
}.

(** [__get_instance_info], without its empty ["key_metrics"]. *)
Record InstanceInfo : Type := mkInstanceInfo {
  i_idx : string;
  i_ts : Z;
  i_training_size : Z;
  i_validation_size : Z;
  i_num_executions : nat;
  i_model : string;
  i_model_name : string;
  i_num_gpu : Z;
  i_batch_size : Z;
  i_model_size : Z;
  i_hyper_parameters : HParams;
  i_local_dir : string;
}.

Record ExecutionInfo : Type := mkExecutionInfo {
  x_num_epochs : Z;
  x_history : History;
  x_loss_fn : Loss;
  x_loss_weigths : Loss;
}.

(** The four statistics of one list of values. *)
Record Stats : Type := mkStats {
  s_min : num;
  s_max : num;
  s_mean : num;
  s_median : num;
}.

(** The results document: the instance information, the key metrics, the
    executions and, for every metric, the statistics of its ['min'] and of
    its ['max'] values. *)
Record Results : Type := mkResults {
  r_info : InstanceInfo;
  r_key_metrics : gmap string num;
  r_executions : list ExecutionInfo;
  r_metrics : gmap string (Stats * Stats);
}.

Record Instance : Type := mkInstance {
  cfg : Config;
  training_size : Z;
  validation_size : Z;
  executions : list Execution;
  results : option Results;  (* [None] is the initial [{}] *)
}.

Definition get_instance_info (self : Instance) : InstanceInfo :=
  let c := cfg self in
  mkInstanceInfo (idx c) (ts c) (training_size self) (validation_size self)
                 (length (executions self)) (to_json (model c)) (model_name c)
                 (num_gpu c) (batch_size c) (model_size c) (hyper_parameters c)
                 (local_dir c).

(** *** fit *)

(** The constructor and the two methods of [InstanceExecution] that [fit]
    calls.  [execution_fit e x y initial_epoch kwargs] is the whole call
    [e.fit(x, y, initial_epoch=..., **kwargs)] (without the keyword when
    [initial_epoch] is [None]): the execution afterwards, and what the call
    returned or raised. *)
Context (InstanceExecution :
           Model -> string -> string -> Z -> Z -> option string -> bool ->
           InstanceInfo -> list (string * Direction) -> option string -> Execution).
Context (execution_fit :
           Execution -> X -> list Y -> option Z -> Kwargs -> Execution * Res FitResults).
Context (execution_record_results : Execution -> FitResults -> Execution).

(** [kwargs.get('validation_data')], when it is there and not empty: its
    second component. *)
Context (validation_targets : Kwargs -> option (list Y)).

Definition set_executions (es : list Execution) (self : Instance) : Instance :=
  mkInstance (cfg self) (training_size self) (validation_size self) es (results self).

(** [__new_execution]: the model is displayed with the first execution
    only; the new execution is appended. *)
Definition new_execution (self : Instance) : Instance * Execution :=
  let c := cfg self in
  let num_executions := length (executions self) in
  let '(display_model, display_info) :=
    if (0 <? num_executions)%nat then (None, false)
    else (Some (display_model c), true) in
  let instance_info := get_instance_info self in
  let execution :=
    InstanceExecution (model c) (idx c) (model_name c) (num_gpu c) (batch_size c)
                      display_model display_info instance_info (key_metrics c)
                      (gs_dir c) in
  (set_executions (executions self ++ [execution]) self, execution).

(** The execution that [fit] works on is an element of [self.executions]:
    what happens to it happens in the list. *)
Definition set_last_execution (e : Execution) (self : Instance) : Instance :=
  set_executions (<[pred (length (executions self)) := e]> (executions self)) self.

Definition fit (x : X) (y : list Y) (resume_execution : bool) (kwargs : Kwargs)
  (self : Instance) : Instance * Res FitResults :=
  let self :=
    mkInstance (cfg self) (Z.of_nat (length y)) (validation_size self)
               (executions self) (results self) in
  let self :=
    match validation_targets kwargs with
    | Some targets =>
        mkInstance (cfg self) (training_size self) (Z.of_nat (length targets))
                   (executions self) (results self)
    | None => self
    end in
  let '(self, execution, initial_epoch) :=
    match resume_execution, last (executions self) with
    | true, Some execution => (self, execution, Some (num_epochs execution))
    | _, _ => let '(self, execution) := new_execution self in (self, execution, None)
    end in
  match execution_fit execution x y initial_epoch kwargs with
  | (execution, inl e) => (set_last_execution execution self, inl e)
  | (execution, inr res) =>
      (set_last_execution (execution_record_results execution res) self, inr res)
  end.

(** *** record_results *)

(** [json.dumps(results)]: the text, or the exception for a value that
    cannot be serialised (a loss given as a function, a numpy [float32]). *)
Context (json_dumps : Results -> Res string).

(** [for metric, data in execution.metrics.items()]: the ['min'] and the
    ['max'] of the execution are appended to the lists kept for [metric]
    (a [defaultdict], so the lists start empty). *)
Definition collect_execution (e : Execution)
  (exec_metrics : gmap string (list num * list num)) : gmap string (list num * list num) :=
  map_fold (fun metric data acc =>
              let lists := default ([], []) (acc !! metric) in
              <[metric := (fst lists ++ [fst data], snd lists ++ [snd data])]> acc)
           exec_metrics (metrics e).

Definition execution_info (e : Execution) : ExecutionInfo :=
  mkExecutionInfo (num_epochs e) (history e) (model_loss (e_model e))
                  (model_loss_weights (e_model e)).

(** The files written for one execution when [save_models] is set. *)
Definition save_model (c : Config) (e : Execution) : list Event :=
  let prefix := model_name c in
  let mdl_base_fname := (idx c ++ "-" ++ pretty (e_ts e))%string in
  let config_path :=
    path_join (local_dir c) (prefix ++ "-" ++ mdl_base_fname ++ "-config.json")%string in
  let weights_path :=
    path_join (local_dir c) (prefix ++ "-" ++ mdl_base_fname ++ "-weights.h5")%string in
  [ FileWrite config_path (to_json (e_model e));
    CloudSave "config" prefix (idx c) (Some (e_ts e)) None config_path (gs_dir c);
    SaveWeights weights_path;
    CloudSave "weights" prefix (idx c) (Some (e_ts e)) None weights_path (gs_dir c) ].

Definition aggregate (data : list num) : Stats :=
  mkStats (np_min data) (np_max data) (np_mean data) (np_median data).

(** [metrics[name][direction]] *)
Definition select (d : Direction) (m : Stats * Stats) : Stats :=
  match d with
  | Min => fst m
  | Max => snd m
  end.

(** [for tm in self.key_metrics]: the median is stored under the name of
    the key metric, over whatever was stored there. *)
Definition publish (metrics : gmap string (Stats * Stats))
  (kms : list (string * Direction)) : gmap string num :=
  foldl (fun acc tm =>
           match metrics !! fst tm with
           | Some m => <[fst tm := s_median (select (snd tm) m)]> acc
           | None => acc
           end) ∅ kms.

(** The dictionary [results] as it stands when it is serialised (line
    181). *)
Definition document (self : Instance) : Results :=
  let exec_metrics :=
    foldl (fun acc e => collect_execution e acc) ∅ (executions self) in
  let metrics :=
    (fun lists => (aggregate (fst lists), aggregate (snd lists))) <$> exec_metrics in
  mkResults (get_instance_info self) (publish metrics (key_metrics (cfg self)))
            (execution_info <$> executions self) metrics.

(** The instance afterwards, what the call returns or raises, and what it
    has written by then.  When [json.dumps] raises, the results file has not
    been written to and [self.results] is not assigned. *)
Definition record_results (save_models : bool) (self : Instance)
  : Instance * Res Results * list Event :=
  let c := cfg self in
  let info := get_instance_info self in
  let prefix := i_model_name info in
  let saved :=
    if save_models then mjoin (save_model c <$> executions self) else [] in
  let res := document self in
  let fname :=
    (prefix ++ "-" ++ idx c ++ "-" ++ pretty (training_size self)
     ++ "-instance-results.json")%string in
  let output_path := path_join (i_local_dir info) fname in
  match json_dumps res with
  | inl e => (self, raise e, saved)
  | inr text =>
      (mkInstance (cfg self) (training_size self) (validation_size self)
                  (executions self) (Some res),
       ret res,
       saved ++ [ FileWrite output_path text;
                  CloudSave "instance-results" prefix (idx c) None
                            (Some (training_size self)) output_path (gs_dir c) ])
  end.

End Instance.

End Instance.

(** ** tuners/multiple_executions_tuner.py *)

Module MultipleExecutionsTuner.
Import Py.

(** The names bound at the top level of the module: what it imports, and
    its class. *)
Definition module_globals : list string :=
  [ "absolute_import"; "division"; "print_function"; "trial_lib"; "tuner_module";
    "oracle_module"; "hp_module"; "tf_utils"; "collections"; "random"; "json";
    "keras"; "MultipleExecutionsTuner" ].

(** The use of a name that is not a local of the function. *)
Definition lookup_global (globals : list string) (name : string) : Res unit :=
  if bool_decide (name ∈ globals) then ret tt else raise (NameError name).

(** What [oracle.objective] may hold: a metric name, an [Objective], or a
    list or tuple of objectives. *)
Inductive Objective : Type :=
| ObjectiveName (name : string)
| ObjectiveObject (name : string) (direction : Direction)
| ObjectiveList (objectives : list Objective)
| ObjectiveTuple (objectives : list Objective).

(** [isinstance(objective, (list, tuple))] *)
Definition is_list_or_tuple (o : Objective) : bool :=
  match o with
  | ObjectiveList _ | ObjectiveTuple _ => true
  | _ => false
  end.

(** [for v in iterable] runs over the elements of a list or tuple, the
    characters of a string, the keys of a dictionary; nothing else here is
    iterable. *)
Definition iterate (v : PyVal) : Res (list PyVal) :=
  match v with
  | PyList xs | PyTuple xs => ret xs
  | PyStr s => ret ((fun c => PyStr (String c "")) <$> list_ascii_of_string s)
  | PyDict items => ret ((fun kv => PyStr (fst kv)) <$> items)
  | PyInt _ => raise (TypeError "'int' object is not iterable")
  | PyFloat _ => raise (TypeError "'float' object is not iterable")
  | PyBool _ => raise (TypeError "'bool' object is not iterable")
  | PyNone => raise (TypeError "'NoneType' object is not iterable")
  end.

(** [a, b = key] for a dictionary key, which is a string. *)
Definition unpack_pair (key : string) : Res (string * string) :=
  match key with
  | String a (String b EmptyString) => ret (String a "", String b "")
  | String _ (String _ (String _ _)) =>
      raise (ValueError "too many values to unpack (expected 2)")
  | _ => raise (ValueError "not enough values to unpack")
  end.

Section Tuner.

Context {OracleT HyperModel InitKwargs Base : Type}.
Context (objective : OracleT -> Objective).
Context (format_objective : Objective -> string).

(** [tuner_module.Tuner.__init__] *)
Context (tuner_init : OracleT -> HyperModel -> InitKwargs -> Res Base).

Record Tuner : Type := mkTuner {
  base : Base;
  oracle : OracleT;
  executions_per_trial : PyVal;
  reported_step : Z;
}.

(** [MultipleExecutionsTuner.__init__] *)
Definition init (oracle : OracleT) (hypermodel : HyperModel)
  (executions_per_trial : PyVal) (kwargs : InitKwargs) : Res Tuner :=
  do b <- tuner_init oracle hypermodel kwargs;
  if is_list_or_tuple (objective oracle)
  then raise (ValueError ("Multi-objective is not supported, found: "
                          ++ format_objective (objective oracle)))
  else ret (mkTuner b oracle executions_per_trial 0).

(** *** run_trial *)

Context {Trial HParams Callback FitArgs Other Model num : Type}.

Record FitKwargs : Type := mkFitKwargs {
  callbacks : option (list Callback);
  other : Other;
}.

(** [history.history]: the values of each metric, epoch by epoch. *)
Definition History : Type := list (string * list num).

(** The call of [oracle.update_trial] that ends a trial. *)
Record TrialUpdate : Type := mkTrialUpdate {
  u_trial_id : string;
  u_metrics : list (string * num);
  u_step : Z;
}.

Context (trial_id : Trial -> string).
Context (hyperparameters_copy : Trial -> HParams).
Context (super_inject_callbacks : list Callback -> Trial -> list Callback).
Context (get_checkpoint_fname : Trial -> Z -> string).
Context (ModelCheckpoint : string -> Callback).
Context (build_model : HParams -> Res Model).
Context (compile_model : Model -> Res unit).
Context (model_fit : Model -> FitArgs -> FitKwargs -> Res History).
Context (np_mean : list num -> num).

(** [_inject_callbacks] *)
Definition inject_callbacks (self : Tuner) (cbs : list Callback) (trial : Trial)
  : list Callback :=
  super_inject_callbacks cbs trial
  ++ [ModelCheckpoint (get_checkpoint_fname trial (reported_step self))].

(** [for metric, epoch_values in history.history]: the loop runs over the
    keys of the dictionary and unpacks each key; in its body the
    subscript [metrics[metrics]] hashes the dictionary itself. *)
Fixpoint collect_history (keys : list string) (metrics : list (string * list num))
  : Res (list (string * list num)) :=
  match keys with
  | [] => ret metrics
  | key :: keys' =>
      do _ <- unpack_pair key;
      do metrics <-
        (raise (TypeError "unhashable type: 'collections.defaultdict'")
         : Res (list (string * list num)));
      collect_history keys' metrics
  end.

(** The body of [for execution in self.executions_per_trial], once per
    element. *)
Fixpoint run_executions (trial : Trial) (fit_args : FitArgs) (fit_kwargs : FitKwargs)
  (executions : list PyVal) (metrics : list (string * list num))
  : Res (list (string * list num)) :=
  match executions with
  | [] => ret metrics
  | _ :: executions' =>
      do model <- build_model (hyperparameters_copy trial);
      do _ <- compile_model model;
      do history <- model_fit model fit_args fit_kwargs;
      do metrics <- collect_history (fst <$> history) metrics;
      run_executions trial fit_args fit_kwargs executions' metrics
  end.

(** [for metric, execution_values in metrics]: again over the keys. *)
Fixpoint average (globals : list string) (keys : list string)
  (averaged : list (string * num)) : Res (list (string * num)) :=
  match keys with
  | [] => ret averaged
  | key :: keys' =>
      do _ <- unpack_pair key;
      do _ <- lookup_global globals "np";
      do averaged <-
        (raise (TypeError "cannot perform reduce with flexible type")
         : Res (list (string * num)));
      average globals keys' averaged
  end.

(** [run_trial], in a module whose top level binds [globals]: the call of
    [oracle.update_trial] it ends with, or the exception. *)
Definition run_trial (globals : list string) (self : Tuner) (trial : Trial)
  (fit_args : FitArgs) (fit_kwargs : FitKwargs) : Res TrialUpdate :=
  do _ <- lookup_global globals "copy";
  let original_callbacks := default [] (callbacks fit_kwargs) in
  let fit_kwargs :=
    mkFitKwargs (Some (inject_callbacks self original_callbacks trial))
                (other fit_kwargs) in
  do _ <- lookup_global globals "collections";
  do executions <- iterate (executions_per_trial self);
  do metrics <- run_executions trial fit_args fit_kwargs executions [];
  do averaged_metrics <- average globals (fst <$> metrics) [];
  ret (mkTrialUpdate (trial_id trial) averaged_metrics (reported_step self)).

End Tuner.

End MultipleExecutionsTuner.

(** ** utils.py *)

Module Utils.
Import Py.

Local Open Scope Q_scope.

Record Layer : Type := mkLayer {
  output_shape : list (option Z);  (* [None] is the batch dimension *)
}.

(** A weight is an object, known by its identity; [K.count_params] gives
    its number of parameters. *)
Record Weight : Type := mkWeight {
  w_id : positive;
  count_params : Z;
}.

#[global] Instance Weight_eq_dec : EqDecision Weight.
Proof. solve_decision. Defined.

Record KerasModel : Type := mkKerasModel {
  layers : list Layer;
  trainable_weights : list Weight;
  non_trainable_weights : list Weight;
}.

(** [np.round(x, 3)]: to the nearest thousandth, a tie going to the even
    one. *)
Definition np_round3 (x : Q) : Q :=
  let scaled := x * 1000 in
  let below := Qfloor scaled in
  let frac := scaled - inject_Z below in
  let nearest :=
    if Qlt_le_dec frac (1 # 2) then below
    else if Qlt_le_dec (1 # 2) frac then (below + 1)%Z
    else if Z.even below then below else (below + 1)%Z in
  Qred (inject_Z nearest / 1000).

(** [np.sum([K.count_params(p) for p in set(weights)])] *)
Definition count_weights (ws : list Weight) : Z :=
  foldr Z.add 0%Z (count_params <$> remove_dups ws).

(** [__get_model_memory_usage]: the memory in gigabytes (with exact
    arithmetic for the floating point), and the number of trainable
    parameters. *)
Definition get_model_memory_usage (model : KerasModel) (batch_size : Z) : Q * Z :=
  let shapes_mem_count :=
    foldl (fun count l =>
             let single_layer_mem :=
               foldl (fun mem s =>
                        match s with
                        | None => mem
                        | Some s => (mem * s)%Z
                        end) 1%Z (output_shape l) in
             (count + single_layer_mem)%Z) 0%Z (layers model) in
  let trainable_count := count_weights (trainable_weights model) in
  let non_trainable_count := count_weights (non_trainable_weights model) in
  let total_memory :=
    4 * inject_Z batch_size
    * inject_Z (shapes_mem_count + trainable_count + non_trainable_count) in
  let gbytes := np_round3 (total_memory / inject_Z (1024 ^ 3)) in
  (gbytes, trainable_count).

(** [return batch_size, model_num_params], the second being a local that
    is bound only once the memory usage has been computed. *)
Definition return_batch_size (batch_size : Z) (model_num_params : option Z)
  : Res (Z * Z) :=
  match model_num_params with
  | Some n => ret (batch_size, n)
  | None => raise (UnboundLocalError "model_num_params")
  end.

(** [fuel] iterations of the loop of [__compute_batch_size]; [None] when
    the loop has not ended by then. *)
Fixpoint compute_batch_size_loop (fuel : nat) (model : KerasModel) (memory : Q)
  (max_size : Z) (batch_size : Z) (model_num_params : option Z)
  : option (Res (Z * Z)) :=
  match fuel with
  | O => None
  | S fuel' =>
      let bs := (batch_size + 2)%Z in
      if (max_size <=? bs)%Z then Some (return_batch_size batch_size model_num_params)
      else
        let '(memory_needed, num_params) := get_model_memory_usage model bs in
        if Qlt_le_dec memory memory_needed
        then Some (return_batch_size batch_size (Some num_params))
        else compute_batch_size_loop fuel' model memory max_size bs (Some num_params)
  end.

Definition compute_batch_size (fuel : nat) (model : KerasModel) (memory : Q)
  (max_size : Z) : option (Res (Z * Z)) :=
  compute_batch_size_loop fuel model memory max_size 16 None.

(** [compute_max_batch_size]: the pair is unpacked into two locals, and the
    function ends without a [return]. *)
Definition compute_max_batch_size (fuel : nat) (model : KerasModel) (gpu_mem : Q)
  (max_size : Z) : option (Res PyVal) :=
  match compute_batch_size fuel model gpu_mem max_size with
  | None => None
  | Some r => Some (do p <- r; let '(batch_size, num_params) := p in ret PyNone)
  end.

Definition default_max_size : Z := 8000.

End Utils.

(** ** numpy on float64 values, to run the aggregation on examples *)

Module Numpy.

Local Open Scope float_scope.

Definition is_nan (x : float) : bool := negb (x =? x).

(** [np.min] and [np.max] of a list that is not empty (the lists that
    [record_results] passes hold a value for every execution that recorded
    the metric): the reduction keeps what it has when that is smaller
    (larger) or a NaN, and takes the next value otherwise. *)
Definition np_min (l : list float) : float :=
  match l with
  | [] => nan
  | x :: xs => foldl (fun m y => if ((m <? y) || is_nan m)%bool then m else y) x xs
  end.

Definition np_max (l : list float) : float :=
  match l with
  | [] => nan
  | x :: xs => foldl (fun m y => if ((y <? m) || is_nan m)%bool then m else y) x xs
  end.

(** The sum of at most 128 values: fewer than eight are added in their
    order, from zero; otherwise eight running sums take every eighth value
    each, are added up in pairs, and what is left over is added to the
    total. *)
Definition add_lanes (r chunk : list float) : list float :=
  zip_with PrimFloat.add r chunk.

Fixpoint sum_lanes (fuel : nat) (r rest : list float) : list float * list float :=
  match fuel with
  | O => (r, rest)
  | S fuel' =>
      if (8 <=? length rest)%nat
      then sum_lanes fuel' (add_lanes r (take 8 rest)) (drop 8 rest)
      else (r, rest)
  end.

Definition sum_block (l : list float) : float :=
  if (length l <? 8)%nat then foldl PrimFloat.add 0 l
  else
    let '(r, rest) := sum_lanes (length l) (take 8 l) (drop 8 l) in
    let lane i := nth i r 0 in
    foldl PrimFloat.add
          (((lane 0%nat + lane 1%nat) + (lane 2%nat + lane 3%nat))
           + ((lane 4%nat + lane 5%nat) + (lane 6%nat + lane 7%nat))) rest.

(** numpy's pairwise summation: more than 128 values are split in two
    halves, the first of a length that is a multiple of eight. *)
Fixpoint pairwise_sum (fuel : nat) (l : list float) : float :=
  match fuel with
  | O => sum_block l
  | S fuel' =>
      if (length l <=? 128)%nat then sum_block l
      else
        let n2 := (length l / 2 - (length l / 2) mod 8)%nat in
        pairwise_sum fuel' (take n2 l) + pairwise_sum fuel' (drop n2 l)
  end.

(** [np.sum] of float64 values: the reduction starts from zero. *)
Definition np_sum (l : list float) : float :=
  0 + pairwise_sum (length l) l.

Definition count (l : list float) : float :=
  PrimFloat.of_uint63 (Uint63.of_Z (Z.of_nat (length l))).

(** [np.mean]: the sum over the count. *)
Definition np_mean (l : list float) : float :=
  np_sum l / count l.

Fixpoint insert_sorted (x : float) (l : list float) : list float :=
  match l with
  | [] => [x]
  | y :: l' => if x <=? y then x :: l else y :: insert_sorted x l'
  end.

Definition sorted (l : list float) : list float := foldr insert_sorted [] l.

(** [np.median]: NaN when the list holds one; otherwise the mean of the
    middle value, or of the two middle values, of the sorted list. *)
Definition np_median (l : list float) : float :=
  let s := sorted l in
  let n := length s in
  if existsb is_nan l then nan
  else if Nat.even n
       then np_mean (take 2 (drop (n / 2 - 1) s))
       else np_mean (take 1 (drop (n / 2) s)).

End Numpy.

(** ** engine/oracle.py: the queries *)

Module OracleQueries.
Import Oracle.

(** What [_raise_if_unknown_hyperparameter] does: it returns, or raises
    [ValueError(message, 'Unknown:', diff)]. *)
Inductive Checked : Type :=
| AllKnown
| UnknownParameters (diff : gset string).

Section Queries.

Context {HP Values : Type} (name : HP -> string).

(** [populate_space], left to the subclasses. *)
Definition populate_space (space : list HP) : Res Values :=
  raise (Raised "NotImplementedError").

(** [result]: "If not overriden, this method does nothing." *)
Definition result (score : Q) (values : Values) (space : list HP) : list HP := space.

(** [_raise_if_unknown_hyperparameter] *)
Definition raise_if_unknown_hyperparameter (space hyperparameters : list HP) : Checked :=
  let names := names_of name hyperparameters in
  let ref_names := names_of name space in
  let diff := names ∖ ref_names in
  if decide (diff = ∅) then AllKnown else UnknownParameters diff.

End Queries.

End OracleQueries.

(** ** engine/hypertuner.py: the constructor and the lookup *)

Module HyperTunerInit.
Import Py HyperTuner.

(** An entry of the [metrics] argument: a tuple [(metric_name, direction)]
    of two strings, or something that is no tuple. *)
Inductive UserMetric : Type :=
| NotTuple (v : PyVal)
| MetricTuple (metric_name direction : string).

(** The keyword arguments that reach the fields modelled in [Tuner]. *)
Record InitKwargs : Type := mkInitKwargs {
  kw_max_fail_streak : option Z;
  kw_display_model : option string;
  kw_metrics : option (list UserMetric);
}.

(** "sensible default" *)
Definition default_key_metrics : list (string * Direction) :=
  [("loss", Min); ("val_loss", Min); ("acc", Max); ("val_acc", Max)].

(** The body of [for tm in user_metrics]: what is no tuple is reported and
    ignored; for a tuple whose direction is neither ['min'] nor ['max'] the
    report is formatted with [% tm] (line 55), two values for one [%s],
    which raises. *)
Definition add_user_metric (key_metrics : list (string * Direction)) (tm : UserMetric)
  : Res (list (string * Direction)) :=
  match tm with
  | NotTuple _ => ret key_metrics
  | MetricTuple metric_name direction =>
      if String.eqb direction "min" then ret (key_metrics ++ [(metric_name, Min)])
      else if String.eqb direction "max" then ret (key_metrics ++ [(metric_name, Max)])
      else raise (TypeError "not all arguments converted during string formatting")
  end.

Fixpoint add_user_metrics (key_metrics : list (string * Direction))
  (user_metrics : list UserMetric) : Res (list (string * Direction)) :=
  match user_metrics with
  | [] => ret key_metrics
  | tm :: rest =>
      do key_metrics <- add_user_metric key_metrics tm;
      add_user_metrics key_metrics rest
  end.

Section Init.

Context {Inst : Type}.

(** [__init__]: the tuner, or the exception of the loop over [metrics] or
    of the check of [display_model]. *)
Definition init (kwargs : InitKwargs) : Res (@Tuner Inst) :=
  let max_fail_streak := default 20 (kw_max_fail_streak kwargs) in
  let display_model := default "" (kw_display_model kwargs) in
  do key_metrics <-
    match kw_metrics kwargs with
    | None | Some [] => ret default_key_metrics
    | Some user_metrics => add_user_metrics [] user_metrics
    end;
  let stats := init_stats key_metrics in
  if bool_decide (display_model ∈ [""; "base"; "multi-gpu"; "both"])
  then ret (mkTuner max_fail_streak 0 0 ∅ None key_metrics stats)
  else raise (Raised "Invalid display_model value: can be either base, multi-gpu or both").

(** [get_model_by_id] *)
Definition get_model_by_id (idx : string) (t : @Tuner Inst) : option Inst :=
  instances t !! idx.

End Init.

End HyperTunerInit.

(** ** states/hoststate.py: the check of the TensorFlow version *)

Module HostState.

(** [s.split(sep)] for a separator of one character. *)
Fixpoint split_on (sep : ascii) (s : string) : list string :=
  match s with
  | EmptyString => [EmptyString]
  | String c s' =>
      if Ascii.eqb c sep then EmptyString :: split_on sep s'
      else
        match split_on sep s' with
        | part :: parts => String c part :: parts
        | [] => [String c EmptyString]
        end
  end.

(** The characters that [int()] strips from the ends of an ASCII string:
    the space and the control characters from tab to carriage return. *)
Definition is_space (c : ascii) : bool :=
  let n := N_of_ascii c in
  (N.eqb n 32 || (N.leb 9 n && N.leb n 13))%bool.

Definition is_digit (c : ascii) : bool :=
  let n := N_of_ascii c in
  (N.leb 48 n && N.leb n 57)%bool.

Fixpoint drop_spaces (cs : list ascii) : list ascii :=
  match cs with
  | c :: cs' => if is_space c then drop_spaces cs' else cs
  | [] => []
  end.

(** The digits of a literal, where one underscore may stand between two
    digits; [after_digit] tells whether the character before was a digit. *)
Fixpoint digits_value (cs : list ascii) (acc : Z) (after_digit : bool) : option Z :=
  match cs with
  | [] => if after_digit then Some acc else None
  | c :: cs' =>
      if is_digit c
      then digits_value cs' (10 * acc + (Z.of_N (N_of_ascii c) - 48)) true
      else if (Ascii.eqb c "_" && after_digit)%bool
           then match cs' with
                | d :: _ => if is_digit d then digits_value cs' acc false else None
                | [] => None
                end
           else None
  end.

(** Whether every character of [s] is an ASCII character. *)
Definition is_ascii (s : string) : bool :=
  forallb (fun c => N.ltb (N_of_ascii c) 128) (list_ascii_of_string s).

(** [int(s)] for an ASCII string of at most [sys.get_int_max_str_digits()]
    (4300) characters: spaces around, a sign, decimal digits. *)
Definition py_int (s : string) : Res Z :=
  let cs := rev (drop_spaces (rev (drop_spaces (list_ascii_of_string s)))) in
  let '(sign, cs) :=
    match cs with
    | "+"%char :: cs' => (1, cs')
    | "-"%char :: cs' => (-1, cs')
    | _ => (1, cs)
    end in
  match digits_value cs 0 false with
  | Some n => ret (sign * n)
  | None => raise (ValueError ("invalid literal for int() with base 10: " ++ s))
  end.

(** How the check ends when nothing is raised: it goes on (having printed
    ['ok'] or not), or it calls [fatal]. *)
Inductive VersionCheck : Type :=
| Supported (printed_ok : bool)
| Fatal (tf_version : string).

(** Lines 43 to 50 of [__init__], [tf_version] being what the host
    reports for TensorFlow. *)
Definition check_tf_version (tf_version : string) : Res VersionCheck :=
  match split_on "." tf_version with
  | [major; minor; rev] =>
      if String.eqb major "1" then
        do m <- py_int minor;
        if 13 <=? m then ret (Supported true) else ret (Fatal tf_version)
      else ret (Supported false)
  | _ :: _ :: _ :: _ :: _ => raise (ValueError "too many values to unpack (expected 3)")
  | _ => raise (ValueError "not enough values to unpack")
  end.

End HostState.

(** ** Calls from engine/hypertuner.py into engine/instance.py *)

Module Calls.
Import HyperTuner.

(** A method [def name(self, p1, ..., pn)] without [*args] and [**kwargs]:
    its parameters after [self], of which the last [defaults] have a
    default value. *)
Record Signature : Type := mkSignature {
  fn_name : string;
  parameters : list string;
  defaults : nat;
}.

(** What a keyword argument of a call runs into, [positional] arguments
    having taken the first parameters. *)
Definition keyword_error (sig : Signature) (positional : nat) (keyword : string)
  : option Exn :=
  match list_find (String.eqb keyword) (parameters sig) with
  | None =>
      Some (TypeError (fn_name sig ++ "() got an unexpected keyword argument '"
                       ++ keyword ++ "'"))
  | Some (i, _) =>
      if (i <? positional)%nat
      then Some (TypeError (fn_name sig ++ "() got multiple values for argument '"
                            ++ keyword ++ "'"))
      else None
  end.

Fixpoint first_keyword_error (sig : Signature) (positional : nat)
  (keywords : list string) : option Exn :=
  match keywords with
  | [] => None
  | keyword :: keywords' =>
      match keyword_error sig positional keyword with
      | Some e => Some e
      | None => first_keyword_error sig positional keywords'
      end
  end.

(** The parameters without a default that the call leaves unbound. *)
Definition missing_arguments (sig : Signature) (positional : nat)
  (keywords : list string) : list string :=
  let required := take (length (parameters sig) - defaults sig) (parameters sig) in
  filter (fun p => p ∉ keywords) (drop positional required).

(** The names of a message: ['a'], ['a' and 'b'], ['a', 'b', and 'c']. *)
Definition quote_all (names : list string) : string :=
  match names with
  | [] => ""
  | [a] => ("'" ++ a ++ "'")%string
  | [a; b] => ("'" ++ a ++ "' and '" ++ b ++ "'")%string
  | a :: rest =>
      ("'" ++ a ++ "', "
       ++ (fix others (l : list string) : string :=
             match l with
             | [] => ""
             | [z] => "and '" ++ z ++ "'"
             | y :: l' => "'" ++ y ++ "', " ++ others l'
             end) rest)%string
  end.

Definition plural (n : nat) : string := if (n =? 1)%nat then "" else "s".

(** How the interpreter binds the arguments of [obj.name(a1, ..., ak,
    kw1=..., ...)]: the keywords are checked in the order of the call, then
    the number of positional arguments, then the parameters left unbound.
    The numbers of the messages count [self]. *)
Definition bind_arguments (sig : Signature) (positional : nat)
  (keywords : list string) : Res unit :=
  match first_keyword_error sig positional keywords with
  | Some e => raise e
  | None =>
      let most := S (length (parameters sig)) in
      let least := (most - defaults sig)%nat in
      if (length (parameters sig) <? positional)%nat
      then raise (TypeError
                    (fn_name sig ++ "() takes "
                     ++ (if (defaults sig =? 0)%nat then ""
                         else "from " ++ pretty least ++ " to ")
                     ++ pretty most ++ " positional argument" ++ plural most
                     ++ " but " ++ pretty (S positional)
                     ++ (if (positional =? 0)%nat then " was" else " were")
                     ++ " given")%string)
      else
        match missing_arguments sig positional keywords with
        | [] => ret tt
        | missing =>
            raise (TypeError
                     (fn_name sig ++ "() missing " ++ pretty (length missing)
                      ++ " required positional argument" ++ plural (length missing)
                      ++ ": " ++ quote_all missing)%string)
        end
  end.

(** [Instance.__init__] (engine/instance.py, line 17) and
    [Instance.record_results] (line 100). *)
Definition Instance_init : Signature :=
  mkSignature "__init__"
    ["idx"; "model"; "hyper_parameters"; "model_name"; "num_gpu"; "batch_size";
     "display_model"; "key_metrics"; "local_dir"; "gs_dir"] 0.

Definition Instance_record_results : Signature :=
  mkSignature "record_results" ["save_models"] 1.

Section Calls.

Context {Model Inst : Type}.

(** Line 98 of engine/hypertuner.py: [Instance(model, idx, self.model_name,
    self.num_gpu, self.gpu_mem, self.display_model)], where [body] is what
    [__init__] does once its arguments are bound. *)
Definition new_instance (body : Model -> string -> Res Inst) (model : Model)
  (idx : string) : Res Inst :=
  do _ <- bind_arguments Instance_init 6 [];
  body model idx.

(** Line 113: [instance.record_results(self.local_dir, gs_dir=...,
    save_models=save_models, prefix=..., key_metrics=...)], where [body]
    is what the method does once its arguments are bound. *)
Definition record_results_of (body : Inst -> Res (gmap string Q))
  (instance : Inst) (save_models : bool) : Res (gmap string Q) :=
  do _ <- bind_arguments Instance_record_results 1
            ["gs_dir"; "save_models"; "prefix"; "key_metrics"];
  body instance.

End Calls.

End Calls.

(** * Part II: properties *)

(** ** Conformance of the XXH64 model *)

Module XXHashVectors.
Import XXHash.

(** Published digests of the reference implementation. *)
Example xxh64_empty : xxh64_hexdigest "" = "ef46db3751d8e999".
Proof. vm_compute. reflexivity. Qed.

Example xxh64_a : xxh64_hexdigest "a" = "d24ec4f1a98c6e5b".
Proof. vm_compute. reflexivity. Qed.

Example xxh64_abc : xxh64_hexdigest "abc" = "44bc2cf5ad770999".
Proof. vm_compute. reflexivity. Qed.

Example xxh64_xxhash : xxh64_hexdigest "xxhash" = "32dd38952c4bc720".
Proof. vm_compute. reflexivity. Qed.

Example xxh64_spammish :
  xxh64_hexdigest "Nobody inspects the spammish repetition" = "fbcea83c8a378bf1".
Proof. vm_compute. reflexivity. Qed.

Example xxh64_quick_brown_fox :
  xxh64_hexdigest "The quick brown fox jumps over the lazy dog" = "0b242d361fda71bc".
Proof. vm_compute. reflexivity. Qed.

End XXHashVectors.

(** ** Examples of [str] *)

Module PyExamples.
Import Py.

Example str_dict :
  str (PyDict [("name", PyStr "dense_1"); ("units", PyInt 32);
               ("use_bias", PyBool true); ("shape", PyTuple [PyNone; PyInt 20])])
  = "{'name': 'dense_1', 'units': 32, 'use_bias': True, 'shape': (None, 20)}".
Proof. vm_compute. reflexivity. Qed.

Example str_quotes :
  str (PyList [PyStr "it's"; PyTuple [PyInt (-1)]; PyList []])
  = String.concat "" ["["; String double_quote "it's"; String double_quote ""; ", (-1,), []]"].
Proof. vm_compute. reflexivity. Qed.

Example str_floats :
  str (PyDict [("rate", PyFloat 0.5); ("lr", PyFloat 0.001); ("epsilon", PyFloat 1e-07);
               ("decay", PyFloat 0); ("clip", PyFloat 1e16); ("momentum", PyFloat 0.9);
               ("scale", PyFloat (-2.5)); ("third", PyFloat (1 / 3))])
  = "{'rate': 0.5, 'lr': 0.001, 'epsilon': 1e-07, 'decay': 0.0, 'clip': 1e+16, 'momentum': 0.9, 'scale': -2.5, 'third': 0.3333333333333333}".
Proof. vm_compute. reflexivity. Qed.

Example eq_numbers :
  py_eq (PyInt 1) (PyFloat 1) = true
  /\ py_eq (PyBool true) (PyFloat 1) = true
  /\ py_eq (PyFloat 0) (PyFloat (-0)) = true
  /\ py_eq (PyFloat nan) (PyFloat nan) = false
  /\ py_eq (PyInt 1) (PyFloat 1.5) = false
  /\ py_eq (PyInt (2 ^ 70)) (PyFloat 1180591620717411303424) = true
  /\ py_eq (PyInt (2 ^ 70 + 1)) (PyFloat 1180591620717411303424) = false.
Proof. repeat split; vm_compute; reflexivity. Qed.

End PyExamples.

(** ** Properties of Python values *)

Module PyProps.
Import Py.

Section NestedInduction.

Variable P : PyVal -> Prop.
Hypothesis HNone : P PyNone.
Hypothesis HBool : forall b, P (PyBool b).
Hypothesis HInt : forall n, P (PyInt n).
Hypothesis HFloat : forall x, P (PyFloat x).
Hypothesis HStr : forall s, P (PyStr s).
Hypothesis HList : forall xs, Forall P xs -> P (PyList xs).
Hypothesis HTuple : forall xs, Forall P xs -> P (PyTuple xs).
Hypothesis HDict : forall items, Forall (fun kv => P (snd kv)) items -> P (PyDict items).


End NestedInduction.







End PyProps.

(** ** Properties of engine/oracle.py *)

Module OracleProps.
Import Oracle.

Section UpdateSpace.

Context {HP : Type} (name : HP -> string).

Lemma update_space_loop (ref : gset string) (new_entries acc : list HP) :
  foldl (fun sp p => if decide (name p ∈ ref) then sp else sp ++ [p])
        acc new_entries
  = acc ++ filter (fun p => name p ∉ ref) new_entries.
Proof.
  revert acc. induction new_entries as [|p ps IH]; intros acc; simpl.
  - by rewrite app_nil_r.
  - rewrite IH. rewrite filter_cons. destruct (decide (name p ∈ ref)) as [Hin|Hout].
    + rewrite decide_False by tauto. done.
    + rewrite decide_True by done. by rewrite <- app_assoc.
Qed.

Lemma update_space_filter (space new_entries : list HP) :
  update_space name space new_entries
  = space ++ filter (fun p => name p ∉ names_of name space) new_entries.
Proof. unfold update_space. apply update_space_loop. Qed.

Lemma names_of_spec (space : list HP) (s : string) :
  s ∈ names_of name space <-> s ∈ name <$> space.
Proof. unfold names_of. by rewrite elem_of_list_to_set. Qed.

Lemma NoDup_fmap_filter (P : HP -> Prop) `{!forall p, Decision (P p)} (l : list HP) :
  NoDup (name <$> l) -> NoDup (name <$> filter P l).
Proof.
  induction l as [|p l IH]; simpl; [done|].
  rewrite NoDup_cons. intros [Hp Hl]. rewrite filter_cons.
  destruct (decide (P p)); [|by apply IH].
  rewrite fmap_cons, NoDup_cons. split; [|by apply IH].
  intros Hin. apply Hp. apply list_elem_of_fmap in Hin as (q & Hq & Hin).
  apply list_elem_of_fmap. exists q. split; [done|].
  by apply list_elem_of_filter in Hin as [_ ?].
Qed.

(** C9, as the code has it: the entries appended are those whose names
    were not tracked when the call started, in their given order, after the
    unchanged old entries; names stay unique when they were unique in the
    space and in [new_entries]. *)
Theorem update_space_appends_untracked (space new_entries : list HP) :
  update_space name space new_entries
  = space ++ filter (fun p => name p ∉ names_of name space) new_entries
  /\ (forall i p, space !! i = Some p ->
        update_space name space new_entries !! i = Some p)
  /\ (NoDup (name <$> space) -> NoDup (name <$> new_entries) ->
        NoDup (name <$> update_space name space new_entries)).
Proof.
  rewrite update_space_filter. split; [done|]. split.
  - intros i p Hi. by apply lookup_app_l_Some.
  - intros Hs Hn. rewrite fmap_app. apply NoDup_app. split; [done|]. split.
    + intros s Hs1 Hs2. apply list_elem_of_fmap in Hs2 as (q & -> & Hq).
      apply list_elem_of_filter in Hq as [Hq _]. apply Hq.
      by apply names_of_spec.
    + by apply NoDup_fmap_filter.
Qed.

End UpdateSpace.

(** Two entries of one call that share a new name are both appended. *)
Definition units_a : string * Z := ("units", 32).
Definition units_b : string * Z := ("units", 64).

Lemma update_space_appends_untracked_witness :
  update_space fst [("lr", 1)] [units_a; ("lr", 2); ("depth", 3)]
  = [("lr", 1); units_a; ("depth", 3)]
  /\ NoDup (fst <$> update_space fst [("lr", 1)] [units_a; ("lr", 2); ("depth", 3)]).
Proof.
  pose proof (update_space_appends_untracked fst
                [("lr", 1)] [units_a; ("lr", 2); ("depth", 3)]) as (H1 & _ & H3).
  split.
  - vm_compute. reflexivity.
  - apply H3.
    + by apply (bool_decide_unpack _).
    + by apply (bool_decide_unpack _).
Defined.

Lemma update_space_duplicate_names :
  NoDup (fst <$> ([] : list (string * Z)))
  /\ update_space fst [] [units_a; units_b] = [units_a; units_b]
  /\ ~ NoDup (fst <$> update_space fst [] [units_a; units_b]).
Proof.
  split; [constructor|]. split; [vm_compute; reflexivity|].
  intros H. apply NoDup_cons in H as [H _]. apply H. vm_compute. left.
Qed.

End OracleProps.

(** ** Properties of engine/hypertuner.py *)

Module HyperTunerProps.
Import Py PyProps HyperTuner.

(** *** The configuration digest *)

Section Identity.

Context {Model : Type} (get_config : Model -> PyVal).


End Identity.

Local Open Scope float_scope.

Definition dense_units_first : PyVal :=
  PyDict [("units", PyInt 32); ("activation", PyStr "relu"); ("rate", PyFloat 0.5)].

Example str_dense_units_first :
  str dense_units_first = "{'units': 32, 'activation': 'relu', 'rate': 0.5}".
Proof. vm_compute. reflexivity. Qed.



(** So have equal configurations that write a flag as [True] and as [1],
    a size as [32] and as [32.0], or a rate as [0.0] and as [-0.0]. *)
Example compute_model_id_depends_on_type :
  py_eq (PyDict [("use_bias", PyBool true)]) (PyDict [("use_bias", PyInt 1)]) = true
  /\ compute_model_id id (PyDict [("use_bias", PyBool true)])
     <> compute_model_id id (PyDict [("use_bias", PyInt 1)]).
Proof. split; [vm_compute; reflexivity|]. vm_compute. discriminate. Qed.

Example compute_model_id_depends_on_number_type :
  py_eq (PyDict [("units", PyInt 32)]) (PyDict [("units", PyFloat 32)]) = true
  /\ compute_model_id id (PyDict [("units", PyInt 32)])
     <> compute_model_id id (PyDict [("units", PyFloat 32)]).
Proof. split; [vm_compute; reflexivity|]. vm_compute. discriminate. Qed.

Example compute_model_id_depends_on_zero_sign :
  py_eq (PyDict [("rate", PyFloat 0)]) (PyDict [("rate", PyFloat (-0))]) = true
  /\ str (PyDict [("rate", PyFloat 0)]) = "{'rate': 0.0}"
  /\ str (PyDict [("rate", PyFloat (-0))]) = "{'rate': -0.0}"
  /\ compute_model_id id (PyDict [("rate", PyFloat 0)])
     <> compute_model_id id (PyDict [("rate", PyFloat (-0))]).
Proof. repeat split; try (vm_compute; reflexivity). vm_compute. discriminate. Qed.

Local Close Scope float_scope.

(** *** get_random_instance *)

Section RandomInstance.

Context {Model Inst : Type}.
Context (get_config : Model -> PyVal).
Context (model_fn : nat -> option Model).
Context (new_instance : Model -> string -> Res Inst).

Local Abbreviation loop := (get_random_instance_loop get_config model_fn new_instance).
Local Abbreviation Tuner := (@Tuner Inst).

Lemma set_invalid_models_twice (v w : Z) (t : Tuner) :
  set_invalid_models v (set_invalid_models w t) = set_invalid_models v t.
Proof. reflexivity. Qed.

Lemma set_collisions_twice (v w : Z) (t : Tuner) :
  set_collisions v (set_collisions w t) = set_collisions v t.
Proof. reflexivity. Qed.

Lemma set_collisions_same (t : Tuner) : set_collisions (collisions t) t = t.
Proof. by destruct t. Qed.

(** While every model built is one already registered, the loop goes on:
    nothing bounds the number of collisions. *)
Lemma loop_on_collisions (fuel : nat) (t : Tuner) (calls : nat) (fail_streak : Z) :
  (forall n, exists m, model_fn n = Some m
                       /\ is_Some (instances t !! compute_model_id get_config m)) ->
  loop fuel t calls fail_streak
  = Looping (set_collisions (collisions t + Z.of_nat fuel) t)
            (calls + fuel)%nat (fail_streak + Z.of_nat fuel).
Proof.
  intros Hcoll. revert t calls fail_streak Hcoll.
  induction fuel as [|fuel IH]; intros t calls fail_streak Hcoll.
  - simpl. rewrite !Z.add_0_r, Nat.add_0_r, set_collisions_same. done.
  - cbn [get_random_instance_loop]. unfold iteration.
    destruct (Hcoll calls) as (m & -> & [i Hi]). rewrite Hi.
    rewrite IH by done. rewrite set_collisions_twice. cbn [collisions set_collisions].
    f_equal; [f_equal|..]; lia.
Qed.

(** The loop run in two stretches. *)
Lemma loop_split (j k : nat) (t : Tuner) (calls : nat) (fail_streak : Z) :
  loop (j + k) t calls fail_streak
  = match loop j t calls fail_streak with
    | Looping t' calls' fail_streak' => loop k t' calls' fail_streak'
    | done => done
    end.
Proof.
  revert t calls fail_streak. induction j as [|j IH]; intros t calls fail_streak.
  - reflexivity.
  - cbn [Nat.add get_random_instance_loop].
    destruct (iteration get_config model_fn new_instance t calls fail_streak);
      [reflexivity | apply IH].
Qed.

(** C6: whenever, in the course of a call, [model_fn] raises and that
    brings [invalid_models] up to [max_fail_streak] or beyond, the call
    returns [None] there and then; it raises nothing.  [t'] is the tuner
    after the [j] iterations that came before, failures below the limit and
    collisions alike. *)
Theorem get_random_instance_returns_none_at_limit (j fuel : nat) (t t' : Tuner)
  (calls calls' : nat) (fail_streak' : Z) :
  get_random_instance get_config model_fn new_instance j t calls
  = Looping t' calls' fail_streak' ->
  model_fn calls' = None ->
  max_fail_streak t' <= invalid_models t' + 1 ->
  get_random_instance get_config model_fn new_instance (j + S fuel) t calls
  = Returned (ret None) (set_invalid_models (invalid_models t' + 1) t') (S calls').
Proof.
  unfold get_random_instance. intros Hbefore Hraise Hlimit.
  rewrite loop_split, Hbefore. cbn [get_random_instance_loop]. unfold iteration.
  rewrite Hraise. cbn [max_fail_streak invalid_models set_invalid_models].
  destruct (Z.leb_spec (max_fail_streak t') (invalid_models t' + 1)); [done|lia].
Qed.

(** When [model_fn] keeps raising, that point is reached: the call returns
    [None] at the failure that brings [invalid_models] up to
    [max_fail_streak], or at the first failure if it is there already. *)
Lemma get_random_instance_gives_up (fuel : nat) (t : Tuner) (calls : nat) :
  let k := Z.to_nat (Z.max 1 (max_fail_streak t - invalid_models t)) in
  (k <= fuel)%nat ->
  (forall i, (i < k)%nat -> model_fn (calls + i) = None) ->
  get_random_instance get_config model_fn new_instance fuel t calls
  = Returned (ret None)
             (set_invalid_models (invalid_models t + Z.of_nat k) t)
             (calls + k).
Proof.
  unfold get_random_instance. generalize 0 as fail_streak.
  revert t calls.
  induction fuel as [|fuel IH]; intros t calls fail_streak;
    set (k := Z.to_nat (Z.max 1 (max_fail_streak t - invalid_models t)));
    intros Hk Hfail.
  - subst k. lia.
  - cbn [get_random_instance_loop]. unfold iteration.
    pose proof (Hfail O) as H0. rewrite Nat.add_0_r in H0. rewrite H0 by (subst k; lia).
    cbn [max_fail_streak invalid_models set_invalid_models].
    destruct (Z.leb_spec (max_fail_streak t) (invalid_models t + 1)) as [Hle|Hgt].
    + assert (k = 1%nat) as -> by (subst k; lia).
      by rewrite Nat.add_1_r.
    + set (t' := set_invalid_models (invalid_models t + 1) t).
      specialize (IH t' (S calls) (fail_streak + 1)). cbv zeta in IH.
      assert (Z.to_nat (Z.max 1 (max_fail_streak t' - invalid_models t')) = (k - 1)%nat)
        as Hk' by (subst k t'; cbn [max_fail_streak invalid_models set_invalid_models]; lia).
      rewrite Hk' in IH. rewrite IH.
      * subst t'. rewrite set_invalid_models_twice.
        cbn [invalid_models set_invalid_models].
        f_equal; [f_equal|]; subst k; lia.
      * subst k. lia.
      * intros i Hi. replace (S calls + i)%nat with (calls + S i)%nat by lia.
        apply Hfail. subst k. lia.
Qed.

End RandomInstance.

(** A model function that never builds anything, and a tuner that gives
    up at the third invalid model. *)
Definition patient_tuner : @Tuner unit := mkTuner 3 0 0 ∅ None [] ∅.

Example patient_tuner_gives_up :
  get_random_instance (Model := PyVal) id (fun _ => None) (fun _ _ => ret tt)
                      5 patient_tuner 0
  = Returned (ret None) (set_invalid_models 3 patient_tuner) 3.
Proof.
  apply (get_random_instance_gives_up (Model := PyVal) id (fun _ => None)
           (fun _ _ => ret tt) 5 patient_tuner 0).
  - vm_compute. lia.
  - reflexivity.
Qed.

(** A tuner that gives up at the second invalid model and has seen the
    model [{'units': 32}]; its function fails, builds that model again,
    and fails once more. *)
Definition seen_units32 : PyVal := PyDict [("units", PyInt 32)].

Definition impatient_tuner : @Tuner unit :=
  mkTuner 2 0 0 {[ compute_model_id id seen_units32 := tt ]} None [] ∅.

Definition fails_collides_fails (n : nat) : option PyVal :=
  match n with
  | 1%nat => Some seen_units32
  | _ => None
  end.

Lemma get_random_instance_returns_none_at_limit_witness :
  get_random_instance id fails_collides_fails (fun _ _ => ret tt) 3 impatient_tuner 0
  = Returned (ret None)
             (set_invalid_models 2 (set_collisions 1 impatient_tuner)) 3.
Proof.
  apply (get_random_instance_returns_none_at_limit id fails_collides_fails
           (fun _ _ => ret tt) 2 0 impatient_tuner
           (set_invalid_models 1 (set_collisions 1 impatient_tuner)) 0 2 2).
  - vm_compute. reflexivity.
  - reflexivity.
  - vm_compute. discriminate.
Defined.

(** A tuner that has registered the one model its function builds. *)
Definition dense32 : PyVal := PyDict [("units", PyInt 32)].
Definition seen_dense32 : @Tuner unit :=
  mkTuner 20 0 0 {[ compute_model_id id dense32 := tt ]}
          (Some (compute_model_id id dense32)) [] ∅.

(** C2 at a failing input: the only model the function builds is already
    registered.  Whatever the number of iterations, the call is still in
    its loop, neither returned nor raised; [fail_streak] grows past
    [max_fail_streak] unread. *)
Theorem get_random_instance_collides_forever (fuel : nat) :
  get_random_instance id (fun _ => Some dense32) (fun _ _ => ret tt)
                      fuel seen_dense32 0
  = Looping (set_collisions (Z.of_nat fuel) seen_dense32) fuel (Z.of_nat fuel).
Proof.
  unfold get_random_instance. rewrite loop_on_collisions.
  - reflexivity.
  - intros _. exists dense32. split; [done|].
    unfold seen_dense32; cbn [instances]. rewrite lookup_singleton_eq. by eexists.
Qed.

End HyperTunerProps.

(** *** record_results: the registry of best values *)

Module StatsProps.
Import HyperTuner.

Local Open Scope Q_scope.

Lemma py_min_le (a b : Q) : py_min a b <= a.
Proof.
  unfold py_min. destruct (Qlt_le_dec b a); [by apply Qlt_le_weak | apply Qle_refl].
Qed.

Lemma py_max_ge (a b : Q) : a <= py_max a b.
Proof.
  unfold py_max. destruct (Qlt_le_dec a b); [by apply Qlt_le_weak | apply Qle_refl].
Qed.

(** [v'] is at least as good as [v] in direction [d]. *)
Definition no_worse (d : Direction) (v v' : Q) : Prop :=
  match d with
  | Min => v' <= v
  | Max => v <= v'
  end.

(** Every value stored in [s] is still stored in [s'], no worse in any
    direction that [kms] declares for its name. *)
Definition improves (kms : list (string * Direction)) (s s' : gmap string Q) : Prop :=
  forall name v,
    s !! name = Some v ->
    exists v', s' !! name = Some v'
               /\ forall d, (name, d) ∈ kms -> no_worse d v v'.

(** No metric name is declared with both directions. *)
Definition one_direction (kms : list (string * Direction)) : Prop :=
  forall name d d', (name, d) ∈ kms -> (name, d') ∈ kms -> d = d'.

Lemma NoDup_names_one_direction (kms : list (string * Direction)) :
  NoDup (kms.*1) -> one_direction kms.
Proof.
  induction kms as [|[n e] kms IH]; intros Hnd name d d' H1 H2.
  - by apply elem_of_nil in H1.
  - rewrite fmap_cons in Hnd. apply NoDup_cons in Hnd as [Hn Hnd]. simpl in Hn.
    assert (forall x, (n, x) ∈ kms -> False) as Hfresh.
    { intros x Hx. apply Hn. apply list_elem_of_fmap. by exists (n, x). }
    apply elem_of_cons in H1 as [H1|H1]; apply elem_of_cons in H2 as [H2|H2].
    + congruence.
    + injection H1 as -> ->. by destruct (Hfresh d').
    + injection H2 as -> ->. by destruct (Hfresh d).
    + by apply (IH Hnd name).
Qed.

Lemma no_worse_refl (d : Direction) (v : Q) : no_worse d v v.
Proof. destruct d; apply Qle_refl. Qed.

Lemma no_worse_trans (d : Direction) (u v w : Q) :
  no_worse d u v -> no_worse d v w -> no_worse d u w.
Proof. destruct d; simpl; intros H1 H2; eapply Qle_trans; eauto. Qed.

Lemma improves_refl kms (s : gmap string Q) : improves kms s s.
Proof. intros name v Hv. exists v. split; [done|]. intros d _. apply no_worse_refl. Qed.

Lemma improves_trans kms (s1 s2 s3 : gmap string Q) :
  improves kms s1 s2 -> improves kms s2 s3 -> improves kms s1 s3.
Proof.
  intros H12 H23 name v Hv.
  destruct (H12 name v Hv) as (v2 & Hv2 & Hd2).
  destruct (H23 name v2 Hv2) as (v3 & Hv3 & Hd3).
  exists v3. split; [done|]. intros d Hd. eapply no_worse_trans; eauto.
Qed.

Lemma record_metric_improves kms (results : gmap string Q) (km : string * Direction)
  (l : Locals) :
  one_direction kms -> km ∈ kms ->
  improves kms (l_stats l) (l_stats (fst (record_metric results km l))).
Proof.
  intros Hone Hkm. destruct km as [metric_name dir]. unfold record_metric. simpl.
  destruct (results !! metric_name) as [res_val|]; simpl.
  2: { destruct (l_best l), (l_res_val l); simpl; apply improves_refl. }
  destruct (l_stats l !! metric_name) as [current_best|] eqn:Hcur; simpl;
    [|apply improves_refl].
  intros name v Hv. destruct (decide (name = metric_name)) as [->|Hne].
  - rewrite lookup_insert_eq. eexists; split; [done|].
    intros d Hd. rewrite (Hone _ _ _ Hd Hkm).
    assert (v = current_best) as -> by congruence.
    destruct dir; simpl; [apply py_min_le | apply py_max_ge].
  - rewrite lookup_insert_ne by done. exists v. split; [done|].
    intros d _. apply no_worse_refl.
Qed.

Lemma record_metrics_improves kms (results : gmap string Q)
  (todo : list (string * Direction)) (l : Locals) :
  one_direction kms -> todo ⊆ kms ->
  improves kms (l_stats l) (l_stats (fst (record_metrics results todo l))).
Proof.
  intros Hone. revert l. induction todo as [|km todo IH]; intros l Hsub; simpl.
  - apply improves_refl.
  - pose proof (record_metric_improves kms results km l Hone) as Hstep.
    destruct (record_metric results km l) as [l' [e|[]]]; simpl in *.
    + apply Hstep, Hsub, list_elem_of_here.
    + eapply improves_trans.
      * apply Hstep, Hsub, list_elem_of_here.
      * apply IH. intros x Hx. apply Hsub. by apply list_elem_of_further.
Qed.

Section RecordResults.

Context {Inst : Type}.
Context (instance_record_results : Inst -> bool -> Res (gmap string Q)).

(** Whatever the method of the instance does: when no metric name is
    declared with both directions, a call of [record_results] (whether it
    returns or raises) keeps every stored value, and for a key metric to
    minimise the value stored afterwards is at most the one before, for a
    key metric to maximise at least the one before. *)
Lemma record_results_improves (save_models : bool) (idx : option string)
  (t : @Tuner Inst) :
  one_direction (key_metrics t) ->
  improves (key_metrics t) (stats t)
           (stats (fst (record_results instance_record_results save_models idx t))).
Proof.
  intros Hone. unfold record_results.
  destruct (_ ≫= _) as [instance|]; simpl; [|apply improves_refl].
  destruct (instance_record_results instance save_models) as [e|results]; simpl;
    [apply improves_refl|].
  pose proof (record_metrics_improves (key_metrics t) results (key_metrics t)
                (mkLocals (stats t) None None []) Hone) as Hrun.
  destruct (record_metrics _ _ _) as [l r]; simpl in *. by apply Hrun.
Qed.

End RecordResults.

Section Repository.

Context {Inst : Type}.

(** What [Instance.record_results] does once its arguments are bound. *)
Context (body : Inst -> Res (gmap string Q)).




End Repository.

End StatsProps.

(** ** Properties of engine/instance.py *)

Module InstanceProps.
Import Instance.

Section Fit.

Context {num Model Loss HParams History FitResults X Y Kwargs : Type}.
Context (to_json : Model -> string).
Context (InstanceExecution :
           Model -> string -> string -> Z -> Z -> option string -> bool ->
           @InstanceInfo HParams -> list (string * Direction) -> option string ->
           @Execution num Model History).
Context (execution_fit :
           @Execution num Model History -> X -> list Y -> option Z -> Kwargs ->
           @Execution num Model History * Res FitResults).
Context (execution_record_results :
           @Execution num Model History -> FitResults -> @Execution num Model History).
Context (validation_targets : Kwargs -> option (list Y)).

Local Abbreviation Instance := (@Instance num Model Loss HParams History).
Local Abbreviation fit :=
  (fit to_json InstanceExecution execution_fit execution_record_results
       validation_targets).

(** The execution as [fit] leaves it: fitted, and its results recorded when
    the fit returned. *)
Definition fitted (e : Execution) (x : X) (y : list Y) (initial_epoch : option Z)
  (kwargs : Kwargs) : @Execution num Model History :=
  match execution_fit e x y initial_epoch kwargs with
  | (e', inl _) => e'
  | (e', inr res) => execution_record_results e' res
  end.

Lemma insert_last {A} (l : list A) (a b : A) :
  <[pred (length (l ++ [a])) := b]> (l ++ [a]) = l ++ [b].
Proof.
  rewrite length_app. simpl. rewrite Nat.add_1_r. simpl.
  rewrite insert_app_r_alt by lia. by rewrite Nat.sub_diag.
Qed.

(** C5: with [resume_execution] set and a prior execution, [fit] appends
    nothing: it fits the last execution, with [initial_epoch] the number
    of epochs that execution has run, and returns what that call returned.
    Without [resume_execution], or without a prior execution, it appends a
    new execution and fits that one, giving no [initial_epoch]. *)
Theorem fit_resumes_or_appends (x : X) (y : list Y) (resume_execution : bool)
  (kwargs : Kwargs) (self : Instance) :
  (forall earlier e,
      resume_execution = true -> executions self = earlier ++ [e] ->
      executions (fst (fit x y resume_execution kwargs self))
      = earlier ++ [fitted e x y (Some (num_epochs e)) kwargs]
      /\ length (executions (fst (fit x y resume_execution kwargs self)))
         = length (executions self)
      /\ snd (fit x y resume_execution kwargs self)
         = snd (execution_fit e x y (Some (num_epochs e)) kwargs))
  /\ (resume_execution = false \/ executions self = [] ->
      exists display_model display_info info,
        let c := cfg self in
        let e := InstanceExecution (model c) (idx c) (model_name c) (num_gpu c)
                                   (batch_size c) display_model display_info info
                                   (key_metrics c) (gs_dir c) in
        executions (fst (fit x y resume_execution kwargs self))
        = executions self ++ [fitted e x y None kwargs]
        /\ length (executions (fst (fit x y resume_execution kwargs self)))
           = S (length (executions self))
        /\ snd (fit x y resume_execution kwargs self)
           = snd (execution_fit e x y None kwargs)).
Proof.
  split.
  - intros earlier e -> Hex. unfold Instance.fit, fitted.
    destruct (validation_targets kwargs) as [targets|];
      cbn [executions cfg training_size validation_size results];
      rewrite Hex, last_snoc;
      destruct (execution_fit e x y (Some (num_epochs e)) kwargs) as [e' [err|res]];
      unfold set_last_execution, set_executions; cbn [executions fst snd];
      by rewrite insert_last, !length_app.
  - intros Hnew. unfold Instance.fit, fitted.
    set (self1 := match validation_targets kwargs with
                  | Some _ => _
                  | None => _
                  end).
    assert (executions self1 = executions self) as Hex
      by (subst self1; by destruct (validation_targets kwargs)).
    assert (cfg self1 = cfg self) as Hcfg
      by (subst self1; by destruct (validation_targets kwargs)).
    assert (match resume_execution, last (executions self1) with
            | true, Some execution => (self1, execution, Some (num_epochs execution))
            | _, _ => let '(self, execution) :=
                        new_execution to_json InstanceExecution self1 in
                      (self, execution, None)
            end
            = (let '(self, execution) :=
                 new_execution to_json InstanceExecution self1 in
               (self, execution, None))) as ->.
    { destruct Hnew as [->|Hnil]; [done|].
      rewrite Hex, Hnil. by destruct resume_execution. }
    unfold new_execution. rewrite Hcfg. destruct (0 <? _)%nat; cbv zeta.
    all: do 3 eexists.
    all: destruct (execution_fit _ x y None kwargs) as [e' [err|res]] eqn:Hfit.
    all: unfold set_last_execution, set_executions; cbn [executions fst snd].
    all: rewrite insert_last, Hex, Hfit, !length_app, Nat.add_1_r; done.
Qed.

End Fit.

(** One execution that has run five epochs; a fit adds three, and returns
    the epoch it started from. *)
Definition five_epochs : @Execution Z unit unit := mkExecution tt 1 5 tt ∅.

Definition three_more (e : @Execution Z unit unit) (x : unit) (y : list unit)
  (initial_epoch : option Z) (kwargs : unit)
  : @Execution Z unit unit * Res Z :=
  (mkExecution (e_model e) (e_ts e) (default 0 initial_epoch + 3) (history e) (metrics e),
   ret (default 0 initial_epoch)).

Definition trained_once : @Instance Z unit unit unit unit :=
  mkInstance (mkConfig "0f3a" tt tt "demo" 0 32 "" 1 10 [] "results/" None)
             64 0 [five_epochs] None.

Lemma fit_resumes_or_appends_witness :
  executions (fst (fit (fun _ => "{}") (fun _ _ _ _ _ _ _ _ _ _ => five_epochs)
                       three_more (fun e _ => e) (fun _ => None)
                       tt [tt; tt] true tt trained_once))
  = [mkExecution tt 1 8 tt ∅]
  /\ snd (fit (fun _ => "{}") (fun _ _ _ _ _ _ _ _ _ _ => five_epochs)
              three_more (fun e _ => e) (fun _ => None)
              tt [tt; tt] true tt trained_once)
     = ret 5.
Proof.
  destruct (fit_resumes_or_appends (fun _ => "{}")
              (fun _ _ _ _ _ _ _ _ _ _ => five_epochs) three_more (fun e _ => e)
              (fun _ => None) tt [tt; tt] true tt trained_once) as [Hresume _].
  destruct (Hresume [] five_epochs) as (Hexecs & _ & Hres).
  - reflexivity.
  - reflexivity.
  - split; [exact Hexecs | exact Hres].
Defined.

End InstanceProps.

(** *** record_results: the aggregation of the executions *)

Module AggregationProps.
Import Instance.

(** The direction with which [name] is declared last in [kms]. *)
Fixpoint last_declared (name : string) (kms : list (string * Direction))
  : option Direction :=
  match kms with
  | [] => None
  | tm :: rest =>
      match last_declared name rest with
      | Some d => Some d
      | None => if decide (fst tm = name) then Some (snd tm) else None
      end
  end.

Lemma last_declared_unique (name : string) (d : Direction)
  (kms : list (string * Direction)) :
  NoDup (kms.*1) -> (name, d) ∈ kms -> last_declared name kms = Some d.
Proof.
  induction kms as [|[n e] kms IH]; intros Hnd Hin.
  - by apply elem_of_nil in Hin.
  - rewrite fmap_cons in Hnd. apply NoDup_cons in Hnd as [Hn Hnd]. simpl in *.
    apply elem_of_cons in Hin as [Heq|Hin].
    + injection Heq as -> ->.
      destruct (last_declared n kms) as [d'|] eqn:Hlast; [|by rewrite decide_True].
      exfalso. apply Hn. clear -Hlast.
      induction kms as [|[n' e'] kms IH]; simpl in *; [done|].
      destruct (last_declared n kms); [right; by apply IH|].
      destruct (decide (n' = n)) as [->|]; [left|done].
    + by rewrite (IH Hnd Hin).
Qed.

Section Aggregation.

Context {num Model Loss HParams History : Type}.
Context (np_min np_max np_mean np_median : list num -> num).
Context (to_json : Model -> string).
Context (model_loss model_loss_weights : Model -> Loss).
Context (json_dumps : @Results num Loss HParams History -> Res string).

Local Abbreviation Execution := (@Execution num Model History).
Local Abbreviation Instance := (@Instance num Model Loss HParams History).
Local Abbreviation record_results :=
  (record_results np_min np_max np_mean np_median to_json model_loss
                  model_loss_weights json_dumps).
Local Abbreviation aggregate := (aggregate np_min np_max np_mean np_median).
Local Abbreviation document :=
  (document np_min np_max np_mean np_median to_json model_loss model_loss_weights).

(** What the executions that recorded [metric] hold for it, in the order
    of the executions. *)
Definition observed (metric : string) (es : list Execution) : list (num * num) :=
  omap (fun e => metrics e !! metric) es.

(** The per-execution values of [metric] in one direction. *)
Definition recorded (metric : string) (d : Direction) (es : list Execution) : list num :=
  match d with
  | Min => fst <$> observed metric es
  | Max => snd <$> observed metric es
  end.

(** The lists kept for a metric after more values were appended. *)
Definition grown (lists : option (list num * list num)) (vs : list (num * num))
  : option (list num * list num) :=
  match vs with
  | [] => lists
  | _ => Some (fst (default ([], []) lists) ++ (fst <$> vs),
               snd (default ([], []) lists) ++ (snd <$> vs))
  end.

Lemma collect_execution_lookup (e : Execution)
  (acc : gmap string (list num * list num)) (k : string) :
  collect_execution e acc !! k = grown (acc !! k) (option_list (metrics e !! k)).
Proof.
  unfold collect_execution.
  apply (map_fold_weak_ind
           (fun r m => r !! k = grown (acc !! k) (option_list (m !! k)))).
  - by rewrite lookup_empty.
  - intros i x m r Hi IH. destruct (decide (i = k)) as [->|Hne].
    + rewrite !lookup_insert_eq. rewrite Hi in IH. simpl in IH. by rewrite IH.
    + by rewrite !lookup_insert_ne.
Qed.

Lemma grown_app (lists : option (list num * list num)) (vs ws : list (num * num)) :
  grown (grown lists vs) ws = grown lists (vs ++ ws).
Proof.
  destruct vs as [|v vs]; [done|]. destruct ws as [|w ws].
  - by rewrite app_nil_r.
  - simpl. by rewrite !fmap_app, <- !app_assoc.
Qed.

Lemma collect_executions_lookup (es : list Execution)
  (acc : gmap string (list num * list num)) (k : string) :
  foldl (fun acc e => collect_execution e acc) acc es !! k
  = grown (acc !! k) (observed k es).
Proof.
  revert acc. induction es as [|e es IH]; intros acc; [done|].
  cbn [foldl]. rewrite IH, collect_execution_lookup, grown_app.
  unfold observed. simpl. by destruct (metrics e !! k).
Qed.

Lemma publish_lookup (ms : gmap string (Stats * Stats))
  (kms : list (string * Direction)) (acc : gmap string num) (name : string) :
  foldl (fun acc tm =>
           match ms !! fst tm with
           | Some m => <[fst tm := s_median (select (snd tm) m)]> acc
           | None => acc
           end) acc kms !! name
  = match last_declared name kms, ms !! name with
    | Some d, Some m => Some (s_median (select d m))
    | _, _ => acc !! name
    end.
Proof.
  revert acc. induction kms as [|[n d] kms IH]; intros acc; [done|].
  cbn [foldl last_declared fst snd]. rewrite IH.
  destruct (last_declared name kms) as [d'|].
  - destruct (ms !! name) as [m|] eqn:Hm; [done|].
    destruct (ms !! n) as [m|] eqn:Hn; [|done].
    rewrite lookup_insert_ne; [done|congruence].
  - destruct (decide (n = name)) as [->|Hne].
    + destruct (ms !! name) as [m|]; [by rewrite lookup_insert_eq|done].
    + destruct (ms !! n); [by rewrite lookup_insert_ne | done];
        by destruct (ms !! name).
Qed.

Lemma document_metrics (self : Instance) (metric : string) :
  r_metrics (document self) !! metric
  = if decide (observed metric (executions self) = []) then None
    else Some (aggregate (recorded metric Min (executions self)),
               aggregate (recorded metric Max (executions self))).
Proof.
  unfold Instance.document. cbn [r_metrics].
  rewrite lookup_fmap, collect_executions_lookup, lookup_empty.
  unfold recorded. destruct (observed metric (executions self)); [done|].
  by rewrite decide_False.
Qed.

Lemma document_key_metrics (self : Instance) (name : string) :
  r_key_metrics (document self) !! name
  = match last_declared name (key_metrics (cfg self)),
          r_metrics (document self) !! name with
    | Some d, Some m => Some (s_median (select d m))
    | _, _ => None
    end.
Proof.
  unfold Instance.document. cbn [r_key_metrics r_metrics].
  unfold publish. rewrite publish_lookup, lookup_empty.
  by repeat case_match.
Qed.

(** What the call returns is the document, when [json.dumps] returns. *)
Lemma record_results_returned (save_models : bool) (self : Instance)
  (res : Results) :
  snd (fst (record_results save_models self)) = ret res <->
  res = document self /\ exists text, json_dumps (document self) = ret text.
Proof.
  unfold Instance.record_results. cbv zeta.
  fold (document self).
  destruct (json_dumps (document self)) as [e|text]; cbn [fst snd].
  - split; [discriminate | by intros [_ [text ?]]].
  - split.
    + intros [= <-]. split; [done | by eexists].
    + by intros [-> _].
Qed.

(** C4, as the code has it: in the results that a call returns, for every
    metric name recorded by some execution there are the four statistics of
    its per-execution ['min'] values and of its per-execution ['max']
    values, and nothing for any other name; for the name of a key metric
    found among them the summary published is the median of the aggregate
    selected by the direction declared last for that name, which is its own
    direction when no name is declared twice. *)
Theorem record_results_aggregates (save_models : bool) (self : Instance)
  (res : Results) :
  snd (fst (record_results save_models self)) = ret res ->
  let es := executions self in
  let kms := key_metrics (cfg self) in
  (forall metric,
      r_metrics res !! metric
      = if decide (observed metric es = []) then None
        else Some (aggregate (recorded metric Min es),
                   aggregate (recorded metric Max es)))
  /\ (forall name,
        r_key_metrics res !! name
        = match last_declared name kms, r_metrics res !! name with
          | Some d, Some m => Some (s_median (select d m))
          | _, _ => None
          end)
  /\ (forall name d,
        NoDup (kms.*1) -> (name, d) ∈ kms ->
        r_key_metrics res !! name
        = (fun m => s_median (select d m)) <$> r_metrics res !! name).
Proof.
  intros [-> _]%record_results_returned. cbv zeta.
  split; [|split].
  - apply document_metrics.
  - apply document_key_metrics.
  - intros name d Hnd Hin.
    rewrite document_key_metrics, (last_declared_unique name d) by done.
    by destruct (_ !! name).
Qed.

End Aggregation.

End AggregationProps.

Module AggregationExamples.
Import Instance AggregationProps Numpy.

Local Open Scope float_scope.

Definition run (ts : Z) (loss_min loss_max : float) : @Execution float unit unit :=
  mkExecution tt ts 10%Z tt {[ "loss" := (loss_min, loss_max) ]}.

Definition two_runs (kms : list (string * Direction))
  : @Instance float unit unit unit unit :=
  mkInstance (mkConfig "0f3a" tt tt "demo" 0%Z 32%Z "" 1%Z 10%Z kms "results/" None)
             64%Z 0%Z [run 1%Z 1 5; run 2%Z 3 9] None.

Local Abbreviation record_results :=
  (record_results np_min np_max np_mean np_median (fun _ => "{}")
                  (fun _ => tt) (fun _ => tt) (fun _ => ret "{}")).

(** The document of [two_runs], which is what the call returns. *)
Definition two_runs_document (kms : list (string * Direction))
  : @Results float unit unit unit :=
  document np_min np_max np_mean np_median (fun _ => "{}") (fun _ => tt)
           (fun _ => tt) (two_runs kms).

Lemma two_runs_returns (kms : list (string * Direction)) :
  snd (fst (record_results false (two_runs kms))) = ret (two_runs_document kms).
Proof. reflexivity. Qed.

Example two_runs_metrics :
  r_metrics (two_runs_document [("loss", Min)]) !! "loss"
  = Some (mkStats 1 3 2 2, mkStats 5 9 7 7).
Proof. vm_compute. reflexivity. Qed.

Example two_runs_files :
  snd (record_results true (two_runs [("loss", Min)]))
  = [ FileWrite "results/demo-0f3a-1-config.json" "{}";
      CloudSave "config" "demo" "0f3a" (Some 1%Z) None
                "results/demo-0f3a-1-config.json" None;
      SaveWeights "results/demo-0f3a-1-weights.h5";
      CloudSave "weights" "demo" "0f3a" (Some 1%Z) None
                "results/demo-0f3a-1-weights.h5" None;
      FileWrite "results/demo-0f3a-2-config.json" "{}";
      CloudSave "config" "demo" "0f3a" (Some 2%Z) None
                "results/demo-0f3a-2-config.json" None;
      SaveWeights "results/demo-0f3a-2-weights.h5";
      CloudSave "weights" "demo" "0f3a" (Some 2%Z) None
                "results/demo-0f3a-2-weights.h5" None;
      FileWrite "results/demo-0f3a-64-instance-results.json" "{}";
      CloudSave "instance-results" "demo" "0f3a" None (Some 64%Z)
                "results/demo-0f3a-64-instance-results.json" None ].
Proof. vm_compute. reflexivity. Qed.

(** A results document that cannot be serialised: the model files are
    written, the results file is not, and the instance keeps no results. *)
Example two_runs_not_serialised :
  Instance.record_results np_min np_max np_mean np_median (fun _ => "{}")
    (fun _ => tt) (fun _ => tt)
    (fun _ => raise (TypeError "Object of type function is not JSON serializable"))
    true (two_runs [("loss", Min)])
  = (two_runs [("loss", Min)],
     raise (TypeError "Object of type function is not JSON serializable"),
     [ FileWrite "results/demo-0f3a-1-config.json" "{}";
       CloudSave "config" "demo" "0f3a" (Some 1%Z) None
                 "results/demo-0f3a-1-config.json" None;
       SaveWeights "results/demo-0f3a-1-weights.h5";
       CloudSave "weights" "demo" "0f3a" (Some 1%Z) None
                 "results/demo-0f3a-1-weights.h5" None;
       FileWrite "results/demo-0f3a-2-config.json" "{}";
       CloudSave "config" "demo" "0f3a" (Some 2%Z) None
                 "results/demo-0f3a-2-config.json" None;
       SaveWeights "results/demo-0f3a-2-weights.h5";
       CloudSave "weights" "demo" "0f3a" (Some 2%Z) None
                 "results/demo-0f3a-2-weights.h5" None ]).
Proof. vm_compute. reflexivity. Qed.

Lemma record_results_aggregates_witness :
  snd (fst (record_results false (two_runs [("loss", Min)])))
  = ret (two_runs_document [("loss", Min)])
  /\ r_key_metrics (two_runs_document [("loss", Min)]) !! "loss" = Some 2.
Proof.
  split; [reflexivity|].
  destruct (record_results_aggregates np_min np_max np_mean np_median
              (fun _ => "{}") (fun _ => tt) (fun _ => tt) (fun _ => ret "{}")
              false (two_runs [("loss", Min)]) (two_runs_document [("loss", Min)])
              (two_runs_returns [("loss", Min)])) as (_ & _ & Hkey).
  rewrite (Hkey "loss" Min).
  - vm_compute. reflexivity.
  - by apply (bool_decide_unpack _).
  - apply list_elem_of_here.
Defined.

(** A name declared in both directions: what is published for it is the
    median of the ['max'] values, not the one its first declaration
    selects. *)
Definition declared_twice : @Instance float unit unit unit unit :=
  two_runs [("loss", Min); ("loss", Max)].

Definition declared_twice_document : @Results float unit unit unit :=
  two_runs_document [("loss", Min); ("loss", Max)].

Lemma record_results_publishes_last_declared :
  ("loss", Min) ∈ key_metrics (cfg declared_twice)
  /\ snd (fst (record_results false declared_twice)) = ret declared_twice_document
  /\ (fun m => s_median (select Min m)) <$> r_metrics declared_twice_document !! "loss"
     = Some 2
  /\ r_key_metrics declared_twice_document !! "loss" = Some 7
  /\ (7 =? 2) = false.
Proof.
  split; [apply list_elem_of_here|].
  split; [reflexivity|].
  split; [vm_compute; reflexivity|].
  split; [vm_compute; reflexivity|].
  vm_compute. reflexivity.
Qed.

End AggregationExamples.

Module CallsExamples.
Import Calls.

(** The two calls of engine/hypertuner.py, and a call that fits. *)
Example call_of_line_98 :
  bind_arguments Instance_init 6 []
  = raise (TypeError "__init__() missing 4 required positional arguments: 'display_model', 'key_metrics', 'local_dir', and 'gs_dir'").
Proof. vm_compute. reflexivity. Qed.

Example call_of_line_113 :
  bind_arguments Instance_record_results 1
                 ["gs_dir"; "save_models"; "prefix"; "key_metrics"]
  = raise (TypeError "record_results() got an unexpected keyword argument 'gs_dir'").
Proof. vm_compute. reflexivity. Qed.

Example call_with_save_models :
  bind_arguments Instance_record_results 0 ["save_models"] = ret tt
  /\ bind_arguments Instance_record_results 1 [] = ret tt
  /\ bind_arguments Instance_record_results 0 [] = ret tt
  /\ bind_arguments Instance_record_results 1 ["save_models"]
     = raise (TypeError "record_results() got multiple values for argument 'save_models'")
  /\ bind_arguments Instance_record_results 2 []
     = raise (TypeError "record_results() takes from 1 to 2 positional arguments but 3 were given").
Proof. repeat split; vm_compute; reflexivity. Qed.

End CallsExamples.

Module StatsExamples.
Import HyperTuner StatsProps.

Local Open Scope Q_scope.

(** A tuner with the default key metrics that holds the instance of
    [AggregationExamples.two_runs]. *)
Definition default_tuner : @Tuner (@Instance.Instance float unit unit unit unit) :=
  mkTuner 20 0 0 {[ "0f3a" := AggregationExamples.two_runs [("loss", Min)] ]}
          (Some "0f3a") HyperTunerInit.default_key_metrics
          (init_stats HyperTunerInit.default_key_metrics).

Example default_tuner_record_results :
  exists msg,
    record_results (Calls.record_results_of (fun _ => ret ∅)) true None default_tuner
    = (default_tuner, raise (TypeError msg)).
Proof. eexists. reflexivity. Qed.


End StatsExamples.

(** ** Properties of tuners/multiple_executions_tuner.py *)

Module MultipleExecutionsTunerProps.
Import Py MultipleExecutionsTuner.

Section Init.

Context {OracleT HyperModel InitKwargs Base : Type}.
Context (objective : OracleT -> Objective).
Context (format_objective : Objective -> string).
Context (tuner_init : OracleT -> HyperModel -> InitKwargs -> Res Base).

(** C8: with a list or a tuple for objective, the constructor returns no
    tuner; when the constructor of the base class returns, what is raised
    is the [ValueError] on multi-objective. *)
Theorem init_rejects_multi_objective (oracle : OracleT) (hypermodel : HyperModel)
  (executions_per_trial : PyVal) (kwargs : InitKwargs) :
  is_list_or_tuple (objective oracle) = true ->
  (forall t,
      init objective format_objective tuner_init oracle hypermodel
           executions_per_trial kwargs <> inr t)
  /\ (forall b,
        tuner_init oracle hypermodel kwargs = inr b ->
        init objective format_objective tuner_init oracle hypermodel
             executions_per_trial kwargs
        = raise (ValueError ("Multi-objective is not supported, found: "
                             ++ format_objective (objective oracle)))).
Proof.
  intros Hmulti. unfold init, bind. rewrite Hmulti. split.
  - intros t. by destruct (tuner_init oracle hypermodel kwargs).
  - intros b Hb. by rewrite Hb.
Qed.

(** Conversely, any other objective is accepted, with the step reported
    to the oracle set to 0. *)
Lemma init_accepts_single_objective (oracle : OracleT) (hypermodel : HyperModel)
  (executions_per_trial : PyVal) (kwargs : InitKwargs) (b : Base) :
  is_list_or_tuple (objective oracle) = false ->
  tuner_init oracle hypermodel kwargs = inr b ->
  init objective format_objective tuner_init oracle hypermodel
       executions_per_trial kwargs
  = ret (mkTuner b oracle executions_per_trial 0).
Proof. intros Hsingle Hb. unfold init, bind. by rewrite Hb, Hsingle. Qed.

End Init.

Lemma init_rejects_multi_objective_witness :
  init (fun o : Objective => o) (fun _ => "['loss', 'val_loss']")
       (fun _ (_ : unit) (_ : unit) => ret tt)
       (ObjectiveList [ObjectiveName "loss"; ObjectiveName "val_loss"]) tt (PyInt 1) tt
  = raise (ValueError "Multi-objective is not supported, found: ['loss', 'val_loss']").
Proof.
  destruct (init_rejects_multi_objective (fun o : Objective => o)
              (fun _ => "['loss', 'val_loss']") (fun _ (_ : unit) (_ : unit) => ret tt)
              (ObjectiveList [ObjectiveName "loss"; ObjectiveName "val_loss"])
              tt (PyInt 1) tt) as [_ Hraise].
  - reflexivity.
  - apply (Hraise tt). reflexivity.
Defined.

Section RunTrial.

Context {OracleT Base Trial HParams Callback FitArgs Other Model num : Type}.
Context (trial_id : Trial -> string).
Context (hyperparameters_copy : Trial -> HParams).
Context (super_inject_callbacks : list Callback -> Trial -> list Callback).
Context (get_checkpoint_fname : Trial -> Z -> string).
Context (ModelCheckpoint : string -> Callback).
Context (build_model : HParams -> Res Model).
Context (compile_model : Model -> Res unit).
Context (model_fit : Model -> FitArgs -> @FitKwargs Callback Other -> Res (@History num)).

Local Abbreviation run_trial :=
  (run_trial (OracleT := OracleT) (Base := Base)
             trial_id hyperparameters_copy super_inject_callbacks
             get_checkpoint_fname ModelCheckpoint build_model compile_model model_fit).

(** C3, on every input: [run_trial] raises [NameError] at its first
    statement, for the module does not import [copy]; it builds and fits
    nothing and reports nothing to the oracle. *)
Theorem run_trial_raises_name_error (self : Tuner) (trial : Trial)
  (fit_args : FitArgs) (fit_kwargs : FitKwargs) :
  run_trial module_globals self trial fit_args fit_kwargs = raise (NameError "copy").
Proof.
  unfold MultipleExecutionsTuner.run_trial.
  assert (lookup_global module_globals "copy" = raise (NameError "copy")) as ->
    by (vm_compute; reflexivity).
  reflexivity.
Qed.

(** Were [copy] imported, the count [executions_per_trial] would still be
    iterated as if it were a sequence. *)
Lemma run_trial_iterates_a_count (globals : list string) (self : Tuner) (trial : Trial)
  (fit_args : FitArgs) (fit_kwargs : FitKwargs) (n : Z) :
  "copy" ∈ globals -> "collections" ∈ globals ->
  executions_per_trial self = PyInt n ->
  run_trial globals self trial fit_args fit_kwargs
  = raise (TypeError "'int' object is not iterable").
Proof.
  intros Hcopy Hcoll Hcount. unfold MultipleExecutionsTuner.run_trial, lookup_global.
  rewrite !bool_decide_eq_true_2 by done. simpl. by rewrite Hcount.
Qed.

(** And were it a sequence, no value of a history would ever be
    collected: a history with a metric makes the trial raise. *)
Lemma collect_history_raises (key : string) (keys : list string)
  (metrics : list (string * list num)) :
  exists e, collect_history (key :: keys) metrics = raise e.
Proof.
  simpl. destruct (unpack_pair key) as [e|p]; simpl; eauto.
Qed.

End RunTrial.

End MultipleExecutionsTunerProps.

Module UtilsProps.
Import Py Utils.

Lemma compute_batch_size_loop_returns (fuel : nat) (model : KerasModel) (memory : Q)
  (max_size batch_size : Z) (model_num_params : option Z) :
  (Z.to_nat (max_size - batch_size) < fuel)%nat ->
  is_Some model_num_params \/ (batch_size + 2 < max_size)%Z ->
  exists bs n,
    compute_batch_size_loop fuel model memory max_size batch_size model_num_params
    = Some (ret (bs, n))
    /\ (batch_size <= bs)%Z.
Proof.
  revert batch_size model_num_params.
  induction fuel as [|fuel IH]; intros batch_size model_num_params Hfuel Hbound;
    [lia|].
  cbn [compute_batch_size_loop].
  destruct (Z.leb_spec max_size (batch_size + 2)) as [Hle|Hlt].
  - destruct Hbound as [[n ->]|Hlt]; [|lia]. exists batch_size, n. split; [done|lia].
  - destruct (get_model_memory_usage model (batch_size + 2)) as [memory_needed n].
    destruct (Qlt_le_dec memory memory_needed).
    + exists batch_size, n. split; [done|lia].
    + destruct (IH (batch_size + 2)%Z (Some n)) as (bs & n' & Hrun & Hbs);
        [lia | left; by eexists |].
      exists bs, n'. split; [done|lia].
Qed.

(** The loop has nothing to return when it stops at its first test. *)
Lemma compute_batch_size_small_max_size (fuel : nat) (model : KerasModel)
  (memory : Q) (max_size : Z) :
  (max_size <= 18)%Z ->
  compute_batch_size (S fuel) model memory max_size
  = Some (raise (UnboundLocalError "model_num_params")).
Proof.
  intros Hsmall. unfold compute_batch_size. cbn [compute_batch_size_loop].
  destruct (Z.leb_spec max_size (16 + 2)); [done|lia].
Qed.

(** C10: for every model and every [gpu_mem], with the default [max_size]
    and whatever number of iterations the loop is given beyond [max_size], [compute_max_batch_size] returns [None], although
    [__compute_batch_size] has returned a batch size to it. *)
Theorem compute_max_batch_size_returns_none (model : KerasModel) (gpu_mem : Q)
  (spare : nat) :
  compute_max_batch_size (Z.to_nat default_max_size + spare) model gpu_mem
                         default_max_size
  = Some (ret PyNone)
  /\ exists bs n,
       compute_batch_size (Z.to_nat default_max_size + spare) model gpu_mem
                          default_max_size
       = Some (ret (bs, n))
       /\ (16 <= bs)%Z.
Proof.
  destruct (compute_batch_size_loop_returns (Z.to_nat default_max_size + spare)
              model gpu_mem default_max_size 16 None) as (bs & n & Hrun & Hbs).
  - unfold default_max_size. lia.
  - right. unfold default_max_size. lia.
  - unfold compute_max_batch_size, compute_batch_size. rewrite Hrun.
    split; [done|]. by exists bs, n.
Qed.

(** A model of 4096 + 1024 parameters whose two layers put out 64 and 10
    values: the batch size found for 1 megabyte stays inside the function. *)
Definition small_model : KerasModel :=
  mkKerasModel [mkLayer [None; Some 64%Z]; mkLayer [None; Some 10%Z]]
               [mkWeight 1 4096; mkWeight 2 1024; mkWeight 1 4096] [].

Example small_model_memory :
  get_model_memory_usage small_model 1000 = ((19 # 1000)%Q, 5120%Z).
Proof. vm_compute. reflexivity. Qed.

Example small_model_batch_size :
  compute_batch_size 100 small_model (1 # 1000) default_max_size
  = Some (ret (76%Z, 5120%Z))
  /\ compute_max_batch_size 100 small_model (1 # 1000) default_max_size
     = Some (ret PyNone).
Proof. split; vm_compute; reflexivity. Qed.

End UtilsProps.

(** * Part III: further properties *)

(** ** engine/oracle.py *)

Module OracleMore.
Import Oracle OracleQueries OracleProps.

Section Space.

Context {HP : Type} (name : HP -> string).

Lemma filter_none {A} (P : A -> Prop) `{!forall x, Decision (P x)} (l : list A) :
  (forall x, x ∈ l -> ~ P x) -> filter P l = [].
Proof.
  induction l as [|x l IH]; intros Hnone; [done|].
  rewrite filter_cons, decide_False by (apply Hnone, list_elem_of_here).
  apply IH. intros y Hy. by apply Hnone, list_elem_of_further.
Qed.

Lemma names_of_update_space (space new_entries : list HP) (s : string) :
  s ∈ names_of name (update_space name space new_entries)
  <-> s ∈ names_of name space \/ s ∈ names_of name new_entries.
Proof.
  rewrite update_space_filter, !names_of_spec, fmap_app, elem_of_app.
  split.
  - intros [Hold|Hnew]; [by left|right].
    apply list_elem_of_fmap in Hnew as (p & -> & Hp).
    apply list_elem_of_filter in Hp as [_ Hp]. apply list_elem_of_fmap. by exists p.
  - intros [Hold|Hnew]; [by left|].
    destruct (decide (s ∈ name <$> space)) as [Hin|Hout]; [by left|right].
    apply list_elem_of_fmap in Hnew as (p & -> & Hp). apply list_elem_of_fmap.
    exists p. split; [done|]. apply list_elem_of_filter. split; [|done].
    by rewrite names_of_spec.
Qed.

(** X1: a second call of [update_space] with the same entries appends
    nothing, repeated names among the entries or not. *)
Theorem update_space_idempotent (space new_entries : list HP) :
  update_space name (update_space name space new_entries) new_entries
  = update_space name space new_entries.
Proof.
  rewrite (update_space_filter name (update_space name space new_entries)).
  rewrite filter_none; [by rewrite app_nil_r|].
  intros p Hp Hfresh. apply Hfresh, names_of_update_space. right.
  apply names_of_spec, list_elem_of_fmap. by exists p.
Qed.

(** X2: after [update_space] the names tracked are those tracked before
    together with those of the new entries, no other. *)
Theorem update_space_tracks_union (space new_entries : list HP) :
  names_of name (update_space name space new_entries)
  = names_of name space ∪ names_of name new_entries.
Proof.
  apply set_eq. intros s. rewrite elem_of_union. apply names_of_update_space.
Qed.

(** X3: [_raise_if_unknown_hyperparameter] returns exactly when every
    requested name is tracked; otherwise the error carries the requested
    names that are not tracked, and only those. *)
Theorem raise_if_unknown_spec (space hyperparameters : list HP) :
  (raise_if_unknown_hyperparameter name space hyperparameters = AllKnown
   <-> forall p, p ∈ hyperparameters -> name p ∈ names_of name space)
  /\ (forall diff,
        raise_if_unknown_hyperparameter name space hyperparameters
        = UnknownParameters diff ->
        diff <> ∅
        /\ forall s, s ∈ diff
                    <-> (exists p, p ∈ hyperparameters /\ name p = s)
                        /\ s ∉ names_of name space).
Proof.
  unfold raise_if_unknown_hyperparameter. split.
  - destruct (decide (_ = ∅)) as [Hempty|Hsome]; split; try done.
    + intros _ p Hp. destruct (decide (name p ∈ names_of name space)); [done|].
      exfalso. apply (not_elem_of_empty (C := gset string) (name p)).
      rewrite <- Hempty. apply elem_of_difference. split; [|done].
      apply names_of_spec, list_elem_of_fmap. by exists p.
    + intros Hall. exfalso. apply Hsome. apply set_eq. intros s.
      rewrite elem_of_difference, names_of_spec, list_elem_of_fmap. split.
      * intros [(p & -> & Hp) Hout]. destruct Hout. by apply Hall.
      * intros Hin. by apply not_elem_of_empty in Hin.
  - intros diff. destruct (decide (_ = ∅)) as [Hempty|Hsome]; [done|].
    intros [= <-]. split; [done|]. intros s.
    rewrite elem_of_difference, names_of_spec, list_elem_of_fmap. split.
    + intros [(p & -> & Hp) Hout]. split; [by exists p|done].
    + intros [(p & Hp & <-) Hout]. split; [by exists p|done].
Qed.

(** X4: once [update_space] has been called with some entries, the check
    passes for them, for what was tracked before, and for both together. *)
Theorem update_space_then_known (space new_entries : list HP) :
  raise_if_unknown_hyperparameter name (update_space name space new_entries)
                                  (space ++ new_entries)
  = AllKnown
  /\ raise_if_unknown_hyperparameter name (update_space name space new_entries)
                                     new_entries
     = AllKnown.
Proof.
  assert (forall hps,
             (forall p, p ∈ hps -> p ∈ space \/ p ∈ new_entries) ->
             raise_if_unknown_hyperparameter name
               (update_space name space new_entries) hps = AllKnown) as Hknown.
  { intros hps Hsub. unfold raise_if_unknown_hyperparameter.
    rewrite decide_True; [done|]. apply set_eq. intros s.
    rewrite elem_of_difference, names_of_update_space, !names_of_spec. split.
    - intros [(p & -> & Hp)%list_elem_of_fmap Hout]. destruct Hout.
      destruct (Hsub p Hp); [left|right]; apply list_elem_of_fmap; by exists p.
    - intros Hin. by apply not_elem_of_empty in Hin. }
  split; apply Hknown.
  - intros p Hp. by apply elem_of_app in Hp.
  - intros p Hp. by right.
Qed.

End Space.

End OracleMore.

(** ** engine/hypertuner.py: the constructor *)

Module HyperTunerInitProps.
Import Py HyperTuner HyperTunerInit AggregationProps.

(** What [__init__] keeps of an entry of [metrics]. *)
Definition accepted (tm : UserMetric) : option (string * Direction) :=
  match tm with
  | NotTuple _ => None
  | MetricTuple metric_name direction =>
      if String.eqb direction "min" then Some (metric_name, Min)
      else if String.eqb direction "max" then Some (metric_name, Max)
      else None
  end.

(** The value a slot of [stats] starts with. *)
Definition initial_best (d : Direction) : Q :=
  match d with
  | Min => inject_Z sys_maxsize
  | Max => inject_Z (-1)
  end.

(** A tuple whose direction is neither ['min'] nor ['max']. *)
Definition ill_directed (tm : UserMetric) : bool :=
  match tm with
  | NotTuple _ => false
  | MetricTuple _ direction =>
      negb (String.eqb direction "min" || String.eqb direction "max")
  end.

Lemma add_user_metric_accepted (kms : list (string * Direction)) (tm : UserMetric) :
  ill_directed tm = false ->
  add_user_metric kms tm = ret (kms ++ option_list (accepted tm)).
Proof.
  destruct tm as [v|metric_name direction]; simpl; [by rewrite app_nil_r|].
  destruct (String.eqb direction "min"); [done|].
  by destruct (String.eqb direction "max").
Qed.

Lemma add_user_metric_ill_directed (kms : list (string * Direction)) (tm : UserMetric) :
  ill_directed tm = true ->
  exists msg, add_user_metric kms tm = raise (TypeError msg).
Proof.
  destruct tm as [v|metric_name direction]; simpl; [done|].
  destruct (String.eqb direction "min"); [done|].
  destruct (String.eqb direction "max"); [done|]. by eexists.
Qed.

Lemma add_user_metrics_accepted (ums : list UserMetric)
  (kms : list (string * Direction)) :
  forallb (fun tm => negb (ill_directed tm)) ums = true ->
  add_user_metrics kms ums = ret (kms ++ omap accepted ums).
Proof.
  revert kms. induction ums as [|tm ums IH]; intros kms Hall; simpl.
  - by rewrite app_nil_r.
  - simpl in Hall. apply andb_prop in Hall as [Htm Hall].
    apply negb_true_iff in Htm.
    rewrite add_user_metric_accepted by done. cbn [bind ret].
    rewrite IH, <- app_assoc by done. by destruct (accepted tm).
Qed.

Lemma add_user_metrics_ill_directed (ums : list UserMetric)
  (kms : list (string * Direction)) :
  forallb (fun tm => negb (ill_directed tm)) ums = false ->
  exists msg, add_user_metrics kms ums = raise (TypeError msg).
Proof.
  revert kms. induction ums as [|tm ums IH]; intros kms Hall; simpl; [done|].
  simpl in Hall. destruct (ill_directed tm) eqn:Htm.
  - destruct (add_user_metric_ill_directed kms tm Htm) as [msg ->]. by exists msg.
  - rewrite add_user_metric_accepted by done. cbn [bind ret]. by apply IH.
Qed.

Lemma init_stats_lookup_from (kms : list (string * Direction)) (acc : gmap string Q)
  (name : string) :
  foldl (fun s km => <[fst km := match snd km with
                                 | Min => inject_Z sys_maxsize
                                 | Max => inject_Z (-1)
                                 end]> s) acc kms !! name
  = match last_declared name kms with
    | Some d => Some (initial_best d)
    | None => acc !! name
    end.
Proof.
  revert acc. induction kms as [|[n d] kms IH]; intros acc; [done|].
  cbn [foldl last_declared fst snd]. rewrite IH.
  destruct (last_declared name kms); [done|].
  destruct (decide (n = name)) as [->|Hne].
  - rewrite lookup_insert_eq. by destruct d.
  - by rewrite lookup_insert_ne.
Qed.

Lemma last_declared_member (name : string) (d : Direction)
  (kms : list (string * Direction)) :
  (name, d) ∈ kms -> is_Some (last_declared name kms).
Proof.
  induction kms as [|[n e] kms IH]; intros Hin; [by apply elem_of_nil in Hin|].
  simpl. apply elem_of_cons in Hin as [Heq|Hin].
  - injection Heq as -> ->. destruct (last_declared n kms); [by eexists|].
    rewrite decide_True by done. by eexists.
  - destruct (IH Hin) as [d' ->]. by eexists.
Qed.

Section Init.

Context {Inst : Type}.

(** X5: a tuner that [__init__] has built has registered no instance and
    counted nothing, and its [stats] have a slot for every key metric and
    for nothing else: the slot of a name starts at [sys.maxsize] when the
    name is declared last to minimise, at [-1] when to maximise. *)
Theorem init_gives_every_key_metric_a_slot (kwargs : InitKwargs) (t : @Tuner Inst) :
  init kwargs = ret t ->
  instances t = ∅ /\ current_instance_idx t = None
  /\ invalid_models t = 0 /\ collisions t = 0
  /\ (forall name,
        stats t !! name = initial_best <$> last_declared name (key_metrics t))
  /\ (forall name d, (name, d) ∈ key_metrics t -> is_Some (stats t !! name)).
Proof.
  unfold init. destruct (match kw_metrics kwargs with
                         | Some (_ :: _ as user_metrics) => _
                         | _ => _
                         end) as [e|declared]; [done|].
  cbn [bind]. destruct (bool_decide _); [|done]. intros [= <-].
  cbn [instances current_instance_idx invalid_models collisions stats key_metrics].
  assert (forall kms name,
             init_stats kms !! name = initial_best <$> last_declared name kms) as Hslot.
  { intros kms name. unfold init_stats. rewrite init_stats_lookup_from, lookup_empty.
    by destruct (last_declared name kms). }
  do 4 (split; [done|]). split.
  - intros name. apply Hslot.
  - intros name d Hin. rewrite Hslot.
    destruct (last_declared_member name d _ Hin) as [d' ->]. by eexists.
Qed.

(** X6: without [metrics], or with an empty list, the key metrics are the
    four defaults.  With a list that is not empty, [__init__] raises
    [TypeError] when the list holds a tuple whose direction is neither
    ['min'] nor ['max']; otherwise, when it returns, the key metrics are
    the tuples of the list, in their order (what is no tuple is ignored), so
    that a list without a tuple leaves the tuner with no key metric and no
    statistics at all. *)
Theorem init_key_metrics (kwargs : InitKwargs) :
  (kw_metrics kwargs = None \/ kw_metrics kwargs = Some [] ->
   forall t : @Tuner Inst, init kwargs = ret t -> key_metrics t = default_key_metrics)
  /\ (forall user_metrics,
        kw_metrics kwargs = Some user_metrics -> user_metrics <> [] ->
        if forallb (fun tm => negb (ill_directed tm)) user_metrics
        then forall t : @Tuner Inst,
               init kwargs = ret t ->
               key_metrics t = omap accepted user_metrics
               /\ (Forall (fun tm => accepted tm = None) user_metrics ->
                   key_metrics t = [] /\ stats t = ∅)
        else exists msg, init (Inst := Inst) kwargs = raise (TypeError msg)).
Proof.
  unfold init. split.
  - intros [->| ->] t; cbn [bind ret]; (destruct (bool_decide _); [|done]);
      by intros [= <-].
  - intros user_metrics -> Hsome.
    destruct user_metrics as [|tm ums]; [done|].
    destruct (forallb _ (tm :: ums)) eqn:Hall.
    + intros t. rewrite add_user_metrics_accepted by done.
      rewrite app_nil_l. remember (omap accepted (tm :: ums)) as kms eqn:Hkms.
      cbn [bind ret].
      destruct (bool_decide _); [|done]. intros [= <-]. cbn [key_metrics stats].
      split; [done|]. intros Hnone.
      assert (kms = []) as ->; [|done].
      rewrite Hkms. clear -Hnone. induction Hnone as [|x l Hx _ IH]; [done|].
      cbn [omap list_omap]. by rewrite Hx.
    + destruct (add_user_metrics_ill_directed (tm :: ums) [] Hall) as [msg ->].
      by exists msg.
Qed.

End Init.

Lemma init_gives_every_key_metric_a_slot_witness :
  is_Some (stats (mkTuner (Inst := unit) 5 0 0 ∅ None [("f1", Max)]
                          (init_stats [("f1", Max)])) !! "f1").
Proof.
  destruct (init_gives_every_key_metric_a_slot (Inst := unit)
              (mkInitKwargs (Some 5) None (Some [MetricTuple "f1" "max"]))
              (mkTuner 5 0 0 ∅ None [("f1", Max)] (init_stats [("f1", Max)])))
    as (_ & _ & _ & _ & _ & Hslot).
  - vm_compute. reflexivity.
  - apply (Hslot "f1" Max). apply list_elem_of_here.
Defined.

(** A list without a tuple, and a list with a tuple of an unknown
    direction. *)
Example init_without_tuple :
  init (Inst := unit) (mkInitKwargs None None (Some [NotTuple (PyStr "loss")]))
  = ret (mkTuner 20 0 0 ∅ None [] ∅).
Proof. vm_compute. reflexivity. Qed.

Example init_unknown_direction :
  init (Inst := unit)
       (mkInitKwargs None None
          (Some [MetricTuple "loss" "min"; MetricTuple "acc" "maximize"]))
  = raise (TypeError "not all arguments converted during string formatting").
Proof. vm_compute. reflexivity. Qed.

End HyperTunerInitProps.

(** ** engine/hypertuner.py: what a call of get_random_instance leaves *)

Module RandomInstanceProps.
Import Py HyperTuner HyperTunerInit.

Section Outcome.

Context {Model Inst : Type}.
Context (get_config : Model -> PyVal).
Context (model_fn : nat -> option Model).
Context (new_instance : Model -> string -> Res Inst).

Local Abbreviation Tuner := (@Tuner Inst).
Local Abbreviation loop := (get_random_instance_loop get_config model_fn new_instance).
Local Abbreviation model_id := (compute_model_id get_config).

(** From [t] after [calls] calls of [model_fn] to [t'] after [calls']: the
    settings are kept, no counter goes down, and every call either failed,
    collided, or is one of the [last] calls that ended the loop. *)
Definition accounted (t : Tuner) (calls : nat) (t' : Tuner) (calls' : nat) (last : Z)
  : Prop :=
  max_fail_streak t' = max_fail_streak t
  /\ key_metrics t' = key_metrics t
  /\ stats t' = stats t
  /\ invalid_models t <= invalid_models t'
  /\ collisions t <= collisions t'
  /\ Z.of_nat calls' - Z.of_nat calls
     = (invalid_models t' - invalid_models t) + (collisions t' - collisions t) + last.

(** What each way of ending tells. *)
Definition ended (t : Tuner) (calls : nat) (r : Res (option Inst)) (t' : Tuner)
  (calls' : nat) : Prop :=
  match r with
  | inr None =>
      accounted t calls t' calls' 0
      /\ instances t' = instances t
      /\ current_instance_idx t' = current_instance_idx t
      /\ max_fail_streak t <= invalid_models t'
      /\ model_fn (pred calls') = None
  | inr (Some i) =>
      accounted t calls t' calls' 1
      /\ exists m,
           model_fn (pred calls') = Some m
           /\ instances t !! model_id m = None
           /\ new_instance m (model_id m) = inr i
           /\ instances t' = <[model_id m := i]> (instances t)
           /\ current_instance_idx t' = Some (model_id m)
  | inl e =>
      accounted t calls t' calls' 1
      /\ instances t' = instances t
      /\ current_instance_idx t' = current_instance_idx t
      /\ exists m,
           model_fn (pred calls') = Some m
           /\ instances t !! model_id m = None
           /\ new_instance m (model_id m) = inl e
  end.

Lemma accounted_step (t t1 t' : Tuner) (calls calls' : nat) (last : Z) :
  max_fail_streak t1 = max_fail_streak t ->
  key_metrics t1 = key_metrics t ->
  stats t1 = stats t ->
  (invalid_models t1 = invalid_models t + 1 /\ collisions t1 = collisions t
   \/ invalid_models t1 = invalid_models t /\ collisions t1 = collisions t + 1) ->
  accounted t1 (S calls) t' calls' last ->
  accounted t calls t' calls' last.
Proof.
  unfold accounted. intros H1 H2 H3 Hcount (? & ? & ? & ? & ? & ?).
  repeat split; try congruence; lia.
Qed.

Lemma loop_ended (fuel : nat) (t : Tuner) (calls : nat) (fail_streak : Z)
  (r : Res (option Inst)) (t' : Tuner) (calls' : nat) :
  loop fuel t calls fail_streak = Returned r t' calls' ->
  ended t calls r t' calls'.
Proof.
  revert t calls fail_streak.
  induction fuel as [|fuel IH]; intros t calls fail_streak; [done|].
  cbn [get_random_instance_loop]. unfold iteration.
  destruct (model_fn calls) as [m|] eqn:Hcall.
  - destruct (instances t !! compute_model_id get_config m) as [seen|] eqn:Hseen.
    + intros Hrun. apply IH in Hrun.
      assert (forall last, accounted (set_collisions (collisions t + 1) t) (S calls)
                                     t' calls' last ->
                           accounted t calls t' calls' last) as Hacc.
      { intros last. apply accounted_step; try done. right. by split. }
      destruct r as [e|[i|]]; cbn [ended instances current_instance_idx set_collisions
                                     max_fail_streak] in *.
      all: destruct Hrun as [Ha Hrest]; split; [by apply Hacc | exact Hrest].
    + destruct (new_instance m (compute_model_id get_config m)) as [e|i] eqn:Hnew;
        intros [= <- <- <-]; cbn [ended pred].
      * split; [unfold accounted; repeat split; lia|].
        do 2 (split; [done|]). by exists m.
      * split; [unfold accounted; cbn; repeat split; lia|]. by exists m.
  - cbn [max_fail_streak invalid_models set_invalid_models].
    destruct (Z.leb_spec (max_fail_streak t) (invalid_models t + 1)) as [Hle|Hgt].
    + intros [= <- <- <-]. cbn [ended pred instances current_instance_idx
                                  set_invalid_models invalid_models].
      split; [unfold accounted; cbn; repeat split; lia|]. by repeat split.
    + intros Hrun. apply IH in Hrun.
      assert (forall last, accounted (set_invalid_models (invalid_models t + 1) t)
                                     (S calls) t' calls' last ->
                           accounted t calls t' calls' last) as Hacc.
      { intros last. apply accounted_step; try done. left. by split. }
      destruct r as [e|[i|]]; cbn [ended instances current_instance_idx
                                     set_invalid_models max_fail_streak] in *.
      all: destruct Hrun as [Ha Hrest]; split; [by apply Hacc | exact Hrest].
Qed.

(** X8: however a call of [get_random_instance] ends, every call of
    [model_fn] it made is accounted for: it made as many as it counted
    invalid models and collisions, and one more unless it returns [None];
    neither counter went down, and the settings, the key metrics and the
    statistics are as before. *)
Theorem get_random_instance_accounts_for_calls (fuel : nat) (t t' : Tuner)
  (calls calls' : nat) (r : Res (option Inst)) :
  get_random_instance get_config model_fn new_instance fuel t calls
  = Returned r t' calls' ->
  accounted t calls t' calls' (match r with inr None => 0 | _ => 1 end).
Proof.
  intros Hrun. apply loop_ended in Hrun.
  destruct r as [e|[i|]]; cbn [ended] in Hrun; apply Hrun.
Qed.

(** X9: [get_random_instance] returns [None] only at a failure of
    [model_fn] that leaves [invalid_models] at [max_fail_streak] or above,
    and then it has registered nothing. *)
Theorem get_random_instance_none_only_at_limit (fuel : nat) (t t' : Tuner)
  (calls calls' : nat) :
  get_random_instance get_config model_fn new_instance fuel t calls
  = Returned (ret None) t' calls' ->
  max_fail_streak t <= invalid_models t'
  /\ model_fn (pred calls') = None
  /\ instances t' = instances t
  /\ current_instance_idx t' = current_instance_idx t.
Proof.
  intros Hrun. apply loop_ended in Hrun as (_ & ? & ? & ? & ?). by repeat split.
Qed.

End Outcome.

Section Repository.

Context {Model Inst : Type}.
Context (get_config : Model -> PyVal).
Context (model_fn : nat -> option Model).

(** What [Instance.__init__] does once its arguments are bound. *)
Context (body : Model -> string -> Res Inst).

(** X7: with the [Instance] of engine/instance.py, [get_random_instance]
    never returns an instance and never registers one: it returns [None],
    or the first model it builds whose id is free makes line 98 raise
    [TypeError], since the call passes six of the ten arguments that
    [__init__] requires. *)
Theorem get_random_instance_never_registers (fuel : nat) (t t' : @Tuner Inst)
  (calls calls' : nat) (r : Res (option Inst)) :
  get_random_instance get_config model_fn (Calls.new_instance body) fuel t calls
  = Returned r t' calls' ->
  instances t' = instances t
  /\ current_instance_idx t' = current_instance_idx t
  /\ (r = ret None
      \/ exists msg model,
           r = raise (TypeError msg)
           /\ model_fn (pred calls') = Some model
           /\ instances t !! compute_model_id get_config model = None).
Proof.
  intros Hrun. apply loop_ended in Hrun.
  destruct r as [e|[i|]]; cbn [ended] in Hrun.
  - destruct Hrun as (_ & Hreg & Hcur & model & Hcall & Hfree & Hnew).
    do 2 (split; [done|]). right.
    unfold Calls.new_instance in Hnew. cbn in Hnew. injection Hnew as <-.
    eexists _, model. by repeat split.
  - destruct Hrun as (_ & model & _ & _ & Hnew & _). by cbn in Hnew.
  - destruct Hrun as (_ & Hreg & Hcur & _). by repeat split; [..|left].
Qed.

End Repository.

(** A fresh tuner whose function fails once and then builds a model. *)
Definition fresh_tuner : @Tuner string := mkTuner 20 0 0 ∅ None [] ∅.

Definition fails_then_builds (n : nat) : option PyVal :=
  match n with
  | O => None
  | _ => Some (PyDict [("units", PyInt (Z.of_nat n))])
  end.

Definition after_first_build : @Tuner string :=
  register (compute_model_id id (PyDict [("units", PyInt 1)])) "first"
           (set_invalid_models 1 fresh_tuner).

Lemma get_random_instance_never_registers_witness :
  (exists msg,
     get_random_instance id fails_then_builds
                         (Calls.new_instance (fun _ idx => ret idx)) 5 fresh_tuner 0
     = Returned (raise (TypeError msg)) (set_invalid_models 1 fresh_tuner) 2)
  /\ instances (set_invalid_models 1 fresh_tuner) = instances fresh_tuner.
Proof.
  assert (exists msg,
            get_random_instance id fails_then_builds
              (Calls.new_instance (fun _ idx => ret idx)) 5 fresh_tuner 0
            = Returned (raise (TypeError msg)) (set_invalid_models 1 fresh_tuner) 2)
    as [msg Hrun].
  { eexists. vm_compute. reflexivity. }
  split; [by exists msg|].
  exact (proj1 (get_random_instance_never_registers id fails_then_builds
                  (fun _ idx => ret idx) 5 fresh_tuner
                  (set_invalid_models 1 fresh_tuner) 0 2 _ Hrun)).
Defined.

Lemma get_random_instance_accounts_for_calls_witness :
  accounted fresh_tuner 0 after_first_build 2 1.
Proof.
  apply (get_random_instance_accounts_for_calls id fails_then_builds
           (fun _ _ => ret "first") 5 fresh_tuner after_first_build 0 2
           (ret (Some "first"))).
  vm_compute. reflexivity.
Defined.

(** A tuner that gives up at the first invalid model. *)
Definition strict_tuner : @Tuner string := mkTuner 1 0 0 ∅ None [] ∅.

Lemma get_random_instance_none_only_at_limit_witness :
  max_fail_streak strict_tuner <= invalid_models (set_invalid_models 1 strict_tuner)
  /\ fails_then_builds (pred 1) = None
  /\ instances (set_invalid_models 1 strict_tuner) = instances strict_tuner
  /\ current_instance_idx (set_invalid_models 1 strict_tuner)
     = current_instance_idx strict_tuner.
Proof.
  apply (get_random_instance_none_only_at_limit id fails_then_builds
           (fun _ _ => ret "first") 5 strict_tuner
           (set_invalid_models 1 strict_tuner) 0 1).
  vm_compute. reflexivity.
Defined.

End RandomInstanceProps.

(** ** engine/hypertuner.py: what record_results records and when it fails *)

Module RecordResultsProps.
Import HyperTuner.

(** The instance that [record_results(idx=...)] works on. *)
Definition instance_for {Inst} (idx : option string) (t : @Tuner Inst) : option Inst :=
  match idx with
  | None | Some "" => current_instance_idx t
  | Some i => Some i
  end ≫= (fun k => instances t !! k).

Lemma record_metric_keeps_slots (results : gmap string Q) (km : string * Direction)
  (l : Locals) :
  dom (l_stats (fst (record_metric results km l))) = dom (l_stats l).
Proof.
  unfold record_metric. destruct (results !! fst km) as [r|].
  - destruct (l_stats l !! fst km) as [v|] eqn:Hv; [|done].
    cbn [l_best l_res_val l_stats fst]. by apply dom_insert_lookup_L.
  - by destruct (l_best l), (l_res_val l).
Qed.

Lemma record_metrics_keeps_slots (results : gmap string Q)
  (kms : list (string * Direction)) (l : Locals) :
  dom (l_stats (fst (record_metrics results kms l))) = dom (l_stats l).
Proof.
  revert l. induction kms as [|km kms IH]; intros l; [done|].
  cbn [record_metrics].
  pose proof (record_metric_keeps_slots results km l) as Hstep.
  destruct (record_metric results km l) as [l1 [e|[]]]; cbn [fst] in *; [done|].
  by rewrite IH.
Qed.

Section RecordResults.

Context {Inst : Type}.
Context (instance_record_results : Inst -> bool -> Res (gmap string Q)).

Local Abbreviation record_results := (record_results instance_record_results).

(** X12: [record_results] never adds a slot to [stats] nor removes one,
    whether it returns or raises: after [__init__] every key metric keeps
    its slot for good. *)
Theorem record_results_keeps_slots (save_models : bool) (idx : option string)
  (t : @Tuner Inst) :
  dom (stats (fst (record_results save_models idx t))) = dom (stats t)
  /\ key_metrics (fst (record_results save_models idx t)) = key_metrics t
  /\ instances (fst (record_results save_models idx t)) = instances t.
Proof.
  unfold HyperTuner.record_results.
  destruct (_ ≫= _) as [instance|]; [|done].
  destruct (instance_record_results instance save_models) as [e|results]; [done|].
  pose proof (record_metrics_keeps_slots results (key_metrics t)
                (mkLocals (stats t) None None [])) as Hslots.
  by destruct (record_metrics _ _ _) as [l r].
Qed.

End RecordResults.

Section Repository.

Context {Inst : Type}.

(** What [Instance.record_results] does once its arguments are bound. *)
Context (body : Inst -> Res (gmap string Q)).

(** X10: with the [Instance] of engine/instance.py, [record_results]
    always raises and leaves the tuner as it was: [KeyError] when no
    instance is registered under the id it looks up, and otherwise
    [TypeError], at the call of line 113, whose keywords the method of the
    instance does not take. *)
Theorem record_results_always_raises (save_models : bool) (idx : option string)
  (t : @Tuner Inst) :
  exists e,
    record_results (Calls.record_results_of body) save_models idx t = (t, raise e)
    /\ match instance_for idx t with
       | None => exists key, e = KeyError key
       | Some _ => exists msg, e = TypeError msg
       end.
Proof.
  unfold instance_for, record_results.
  destruct (_ ≫= _) as [instance|].
  - eexists. split; [reflexivity|]. by eexists.
  - eexists. split; [reflexivity|]. by eexists.
Qed.

End Repository.

End RecordResultsProps.

(** ** engine/instance.py: sequences of fits *)

Module FitProps.
Import Instance.

Section Fits.

Context {num Model Loss HParams History FitResults X Y Kwargs : Type}.
Context (to_json : Model -> string).
Context (InstanceExecution :
           Model -> string -> string -> Z -> Z -> option string -> bool ->
           @InstanceInfo HParams -> list (string * Direction) -> option string ->
           @Execution num Model History).
Context (execution_fit :
           @Execution num Model History -> X -> list Y -> option Z -> Kwargs ->
           @Execution num Model History * Res FitResults).
Context (execution_record_results :
           @Execution num Model History -> FitResults -> @Execution num Model History).
Context (validation_targets : Kwargs -> option (list Y)).

Local Abbreviation Instance := (@Instance num Model Loss HParams History).
Local Abbreviation fit :=
  (fit to_json InstanceExecution execution_fit execution_record_results
       validation_targets).

(** One call of [fit]: its arguments. *)
Record FitCall : Type := mkFitCall {
  c_x : X;
  c_y : list Y;
  c_resume_execution : bool;
  c_kwargs : Kwargs;
}.

(** The instance after the calls, one after the other, whether they
    return or raise. *)
Definition fit_all (calls : list FitCall) (self : Instance) : Instance :=
  foldl (fun s c => fst (fit (c_x c) (c_y c) (c_resume_execution c) (c_kwargs c) s))
        self calls.

(** The calls that ask for a new execution. *)
Definition fresh_calls (calls : list FitCall) : nat :=
  length (filter (fun c => c_resume_execution c = false) calls).

Lemma fit_count (x : X) (y : list Y) (resume_execution : bool) (kwargs : Kwargs)
  (self : Instance) :
  length (executions (fst (fit x y resume_execution kwargs self)))
  = match resume_execution, executions self with
    | true, _ :: _ => length (executions self)
    | _, _ => S (length (executions self))
    end.
Proof.
  unfold Instance.fit.
  set (self1 := match validation_targets kwargs with
                | Some _ => _
                | None => _
                end).
  assert (executions self1 = executions self) as Hex
    by (subst self1; by destruct (validation_targets kwargs)).
  destruct (executions self) as [|e0 es] eqn:Hes using rev_ind.
  - rewrite Hex. cbn [last].
    assert (match resume_execution with
            | true | _ => let '(self, execution) :=
                            new_execution to_json InstanceExecution self1 in
                          (self, execution, @None Z)
            end
            = (let '(self, execution) :=
                 new_execution to_json InstanceExecution self1 in
               (self, execution, None))) as -> by (by destruct resume_execution).
    unfold new_execution. destruct (0 <? _)%nat; cbv zeta.
    all: destruct (execution_fit _ x y None kwargs) as [e' [err|res]].
    all: unfold set_last_execution, set_executions; cbn [executions fst].
    all: rewrite length_insert, length_app, Hex; by destruct resume_execution.
  - clear IHes. rewrite Hex, last_snoc.
    assert (match resume_execution, es ++ [e0] with
            | true, _ :: _ => length (es ++ [e0])
            | _, _ => S (length (es ++ [e0]))
            end
            = if resume_execution then length (es ++ [e0]) else S (length (es ++ [e0])))
      as -> by (by destruct resume_execution, es).
    destruct resume_execution.
    + destruct (execution_fit e0 x y _ kwargs) as [e' [err|res]].
      all: unfold set_last_execution, set_executions; cbn [executions fst].
      all: by rewrite length_insert, Hex.
    + unfold new_execution. destruct (0 <? _)%nat; cbv zeta.
      all: destruct (execution_fit _ x y None kwargs) as [e' [err|res]].
      all: unfold set_last_execution, set_executions; cbn [executions fst].
      all: by rewrite length_insert, length_app, Hex, Nat.add_1_r.
Qed.

Lemma fit_all_cons (c : FitCall) (calls : list FitCall) (self : Instance) :
  fit_all (c :: calls) self
  = fit_all calls (fst (fit (c_x c) (c_y c) (c_resume_execution c) (c_kwargs c) self)).
Proof. reflexivity. Qed.

Lemma fit_all_count_from_some (calls : list FitCall) (self : Instance) :
  executions self <> [] ->
  length (executions (fit_all calls self))
  = (length (executions self) + fresh_calls calls)%nat.
Proof.
  revert self. induction calls as [|c calls IH]; intros self Hsome.
  - unfold fresh_calls. simpl. lia.
  - rewrite fit_all_cons.
    pose proof (fit_count (c_x c) (c_y c) (c_resume_execution c) (c_kwargs c) self)
      as Hone.
    rewrite IH.
    + rewrite Hone. unfold fresh_calls. rewrite filter_cons.
      destruct (executions self) as [|e es]; [done|].
      destruct (c_resume_execution c); simpl; lia.
    + intros Hnil. rewrite Hnil in Hone.
      destruct (c_resume_execution c), (executions self); simpl in Hone; lia.
Qed.

(** X14: after any sequence of calls of [fit] an instance that had
    executions has one more for each call without [resume_execution], and
    no other; on an instance that had none the first call adds one
    whatever it asks for. *)
Theorem fit_all_count (calls : list FitCall) (self : Instance) :
  (executions self <> [] ->
   length (executions (fit_all calls self))
   = (length (executions self) + fresh_calls calls)%nat)
  /\ (forall c rest,
        executions self = [] -> calls = c :: rest ->
        length (executions (fit_all calls self)) = S (fresh_calls rest)).
Proof.
  split; [apply fit_all_count_from_some|].
  intros c rest Hnone ->. rewrite fit_all_cons.
  pose proof (fit_count (c_x c) (c_y c) (c_resume_execution c) (c_kwargs c) self)
    as Hone.
  rewrite Hnone in Hone.
  rewrite fit_all_count_from_some.
  - rewrite Hone. by destruct (c_resume_execution c).
  - intros Hnil. rewrite Hnil in Hone. by destruct (c_resume_execution c).
Qed.

(** X15: [fit] records the number of targets as [training_size]; it
    changes [validation_size] only when validation data is given, so that a
    later fit without validation data leaves the earlier size in place; the
    settings and the recorded results are not touched. *)
Theorem fit_sizes (x : X) (y : list Y) (resume_execution : bool) (kwargs : Kwargs)
  (self : Instance) :
  training_size (fst (fit x y resume_execution kwargs self)) = Z.of_nat (length y)
  /\ validation_size (fst (fit x y resume_execution kwargs self))
     = match validation_targets kwargs with
       | Some targets => Z.of_nat (length targets)
       | None => validation_size self
       end
  /\ cfg (fst (fit x y resume_execution kwargs self)) = cfg self
  /\ results (fst (fit x y resume_execution kwargs self)) = results self.
Proof.
  unfold Instance.fit.
  destruct (validation_targets kwargs) as [targets|]; cbn [executions].
  all: destruct resume_execution, (last (executions self)) as [e|].
  all: unfold new_execution; try destruct (0 <? _)%nat; cbv zeta.
  all: destruct (execution_fit _ x y _ kwargs) as [e' [err|res]].
  all: by unfold set_last_execution, set_executions.
Qed.

End Fits.

Lemma fit_all_count_witness :
  length (executions
            (fit_all (fun _ => "{}")
                     (fun _ _ _ _ _ _ _ _ _ _ => InstanceProps.five_epochs)
                     InstanceProps.three_more (fun e _ => e) (fun _ => None)
                     [mkFitCall tt [tt] true tt; mkFitCall tt [tt] false tt;
                      mkFitCall tt [tt] true tt]
                     InstanceProps.trained_once))
  = 2%nat.
Proof.
  destruct (fit_all_count (fun _ => "{}")
              (fun _ _ _ _ _ _ _ _ _ _ => InstanceProps.five_epochs)
              InstanceProps.three_more (fun e _ => e) (fun _ => None)
              [mkFitCall tt [tt] true tt; mkFitCall tt [tt] false tt;
               mkFitCall tt [tt] true tt]
              InstanceProps.trained_once) as [Hsome _].
  rewrite Hsome; [reflexivity|discriminate].
Defined.

End FitProps.

(** ** engine/instance.py: what record_results writes and publishes *)

Module RecordedProps.
Import Instance AggregationProps.


Definition is_model_file (ev : Event) : bool :=
  match ev with
  | SaveWeights _ => true
  | FileWrite _ _ => true
  | CloudSave _ _ _ _ _ _ _ => false
  end.


Lemma last_declared_declared (name : string) (kms : list (string * Direction)) :
  is_Some (last_declared name kms) <-> name ∈ kms.*1.
Proof.
  induction kms as [|[n d] kms IH]; simpl.
  - split; [by intros [? ?] | by intros ?%elem_of_nil].
  - rewrite elem_of_cons, <- IH. destruct (last_declared name kms) as [d'|].
    + split; [right|]; by eexists.
    + destruct (decide (n = name)) as [->|Hne]; cbn [fst].
      * split; [by left | by eexists].
      * split; [by intros [? ?] | intros [?|[? ?]]; congruence].
Qed.

Section Recorded.

Context {num Model Loss HParams History : Type}.
Context (np_min np_max np_mean np_median : list num -> num).
Context (to_json : Model -> string).
Context (model_loss model_loss_weights : Model -> Loss).
Context (json_dumps : @Results num Loss HParams History -> Res string).

Local Abbreviation Instance := (@Instance num Model Loss HParams History).
Local Abbreviation record_results :=
  (record_results np_min np_max np_mean np_median to_json model_loss
                  model_loss_weights json_dumps).
Local Abbreviation document :=
  (document np_min np_max np_mean np_median to_json model_loss model_loss_weights).



(** X17: the results that a call returns publish a summary under a name
    exactly when the name is that of a key metric and some execution
    recorded a metric of that name. *)
Theorem record_results_publishes_iff (save_models : bool) (self : Instance)
  (res : Results) (name : string) :
  snd (fst (record_results save_models self)) = ret res ->
  is_Some (r_key_metrics res !! name)
  <-> name ∈ (key_metrics (cfg self)).*1
      /\ exists e, e ∈ executions self /\ is_Some (metrics e !! name).
Proof.
  intros [-> _]%record_results_returned.
  rewrite document_key_metrics, document_metrics.
  rewrite <- last_declared_declared.
  assert (observed name (executions self) <> []
          <-> exists e, e ∈ executions self /\ is_Some (metrics e !! name)) as <-.
  { unfold observed. induction (executions self) as [|e es IH].
    - split; [done|]. intros (e & He & _). by apply elem_of_nil in He.
    - cbn [omap list_omap]. destruct (metrics e !! name) as [v|] eqn:Hv.
      + split; [|done]. intros _. exists e. split; [apply list_elem_of_here|by eexists].
      + rewrite IH. split.
        * intros (e' & He' & Hsome). exists e'. split; [|done].
          by apply list_elem_of_further.
        * intros (e' & He' & Hsome). apply elem_of_cons in He' as [->|He'].
          -- rewrite Hv in Hsome. by destruct Hsome.
          -- by exists e'. }
  destruct (last_declared name (key_metrics (cfg self))) as [d|].
  - destruct (decide (observed name (executions self) = [])) as [Hnone|Hsome].
    + split; [by intros [? ?] | by intros [_ ?]].
    + split; [intros _; split; [by eexists|done] | intros _; by eexists].
  - split; [by intros [? ?] | by intros [[? ?] _]].
Qed.

End Recorded.

(** The run of [AggregationExamples.two_runs] publishes a summary for
    ["loss"]. *)
Lemma record_results_publishes_iff_witness :
  is_Some (r_key_metrics (AggregationExamples.two_runs_document [("loss", Min)])
             !! "loss")
  <-> "loss" ∈ (key_metrics (cfg (AggregationExamples.two_runs [("loss", Min)]))).*1
      /\ exists e,
           e ∈ executions (AggregationExamples.two_runs [("loss", Min)])
           /\ is_Some (metrics e !! "loss").
Proof.
  exact (record_results_publishes_iff
           Numpy.np_min Numpy.np_max Numpy.np_mean Numpy.np_median
           (fun _ => "{}") (fun _ => tt) (fun _ => tt) (fun _ => ret "{}")
           false (AggregationExamples.two_runs [("loss", Min)])
           (AggregationExamples.two_runs_document [("loss", Min)]) "loss"
           (AggregationExamples.two_runs_returns [("loss", Min)])).
Defined.

End RecordedProps.

(** ** utils.py: the batch size found *)

Module BatchSizeProps.
Import Py Utils.

Local Open Scope Q_scope.

(** The memory that a batch of [bs] needs, as the search computes it. *)
Definition memory_needed (model : KerasModel) (bs : Z) : Q :=
  fst (get_model_memory_usage model bs).

Lemma memory_usage_params (model : KerasModel) (bs : Z) :
  snd (get_model_memory_usage model bs) = count_weights (trainable_weights model).
Proof. reflexivity. Qed.

Lemma compute_batch_size_loop_result (fuel : nat) (model : KerasModel) (memory : Q)
  (max_size batch_size : Z) (model_num_params : option Z) (bs n : Z) :
  compute_batch_size_loop fuel model memory max_size batch_size model_num_params
  = Some (ret (bs, n)) ->
  (forall x, model_num_params = Some x ->
             x = count_weights (trainable_weights model)
             /\ (batch_size < max_size)%Z) ->
  (exists k, (0 <= k)%Z /\ bs = (batch_size + 2 * k)%Z)
  /\ (bs < max_size)%Z
  /\ n = count_weights (trainable_weights model)
  /\ (bs = batch_size \/ memory_needed model bs <= memory)
  /\ ((max_size <= bs + 2)%Z \/ memory < memory_needed model (bs + 2)).
Proof.
  revert batch_size model_num_params.
  induction fuel as [|fuel IH]; intros batch_size model_num_params; [done|].
  cbn [compute_batch_size_loop]. intros Hrun Hparams.
  destruct (Z.leb_spec max_size (batch_size + 2)) as [Hle|Hlt].
  - destruct model_num_params as [x|]; [|done]. injection Hrun as <- <-.
    destruct (Hparams x eq_refl) as [Hx Hsize].
    split; [exists 0%Z; lia|]. do 2 (split; [done|]). split; by left.
  - destruct (get_model_memory_usage model (batch_size + 2)) as [needed x] eqn:Husage.
    assert (x = count_weights (trainable_weights model)) as Hx
      by (by rewrite <- (memory_usage_params model (batch_size + 2)), Husage).
    assert (needed = memory_needed model (batch_size + 2)) as Hneeded
      by (unfold memory_needed; by rewrite Husage).
    destruct (Qlt_le_dec memory needed) as [Hover|Hfits].
    + injection Hrun as <- <-.
      split; [exists 0%Z; lia|]. split; [lia|]. split; [done|]. split; [by left|].
      right. by rewrite <- Hneeded.
    + apply IH in Hrun as ((k & Hk & ->) & Hsize & Hn & Hfit & Hmax);
        [|by intros ? [= <-]].
      split; [exists (k + 1)%Z; lia|]. do 2 (split; [done|]). split; [|done].
      right. destruct Hfit as [Heq|Hfit]; [|done].
      rewrite Heq. by rewrite <- Hneeded.
Qed.

(** X19: whatever the memory given and whatever each batch size is found
    to need, the batch size that [__compute_batch_size] returns is 16 plus
    an even number and below [max_size], and it returns only for a
    [max_size] above 18. *)
Theorem compute_batch_size_steps (fuel : nat) (model : KerasModel) (memory : Q)
  (max_size bs n : Z) :
  compute_batch_size fuel model memory max_size = Some (ret (bs, n)) ->
  (exists k, (0 <= k)%Z /\ bs = (16 + 2 * k)%Z)
  /\ (bs < max_size)%Z
  /\ (18 < max_size)%Z.
Proof.
  unfold compute_batch_size. intros Hrun.
  assert (18 < max_size)%Z as Hmax.
  { destruct fuel as [|fuel]; [done|]. cbn [compute_batch_size_loop] in Hrun.
    destruct (Z.leb_spec max_size (16 + 2)); [done|lia]. }
  apply compute_batch_size_loop_result in Hrun
      as ((k & Hk & ->) & Hsize & _); [|done].
  split; [by exists k|]. by split.
Qed.

Lemma compute_batch_size_steps_witness :
  (exists k, (0 <= k)%Z /\ 76%Z = (16 + 2 * k)%Z)
  /\ (76 < default_max_size)%Z
  /\ (18 < default_max_size)%Z.
Proof.
  apply (compute_batch_size_steps 100 UtilsProps.small_model (1 # 1000)
           default_max_size 76 5120).
  vm_compute. reflexivity.
Defined.

(** X20: with a [max_size] of 18 or less the search stops before it has
    computed anything, and [compute_max_batch_size] raises
    [UnboundLocalError] instead of returning. *)
Theorem compute_max_batch_size_small_max_size (fuel : nat) (model : KerasModel)
  (gpu_mem : Q) (max_size : Z) :
  (max_size <= 18)%Z ->
  compute_max_batch_size (S fuel) model gpu_mem max_size
  = Some (raise (UnboundLocalError "model_num_params")).
Proof.
  intros Hsmall. unfold compute_max_batch_size, compute_batch_size.
  cbn [compute_batch_size_loop].
  destruct (Z.leb_spec max_size (16 + 2)); [done|lia].
Qed.

Lemma compute_max_batch_size_small_max_size_witness :
  compute_max_batch_size 1 UtilsProps.small_model (1 # 1) 18
  = Some (raise (UnboundLocalError "model_num_params")).
Proof.
  apply (compute_max_batch_size_small_max_size 0 UtilsProps.small_model (1 # 1) 18).
  lia.
Defined.

End BatchSizeProps.

(** ** states/hoststate.py *)

Module HostStateProps.
Import HostState.

(** The number of occurrences of a character. *)
Fixpoint occurrences (c : ascii) (s : string) : nat :=
  match s with
  | EmptyString => O
  | String c' s' => if Ascii.eqb c' c then S (occurrences c s') else occurrences c s'
  end.

Lemma split_on_length (sep : ascii) (s : string) :
  length (split_on sep s) = S (occurrences sep s).
Proof.
  induction s as [|c s IH]; [done|]. cbn [split_on occurrences].
  destruct (Ascii.eqb c sep); [simpl; by rewrite IH|].
  destruct (split_on sep s) as [|part parts]; [done|]. by rewrite <- IH.
Qed.

Lemma split_on_no_separator (sep : ascii) (s : string) :
  Forall (fun part => occurrences sep part = O) (split_on sep s).
Proof.
  induction s as [|c s IH]; [by repeat constructor|]. cbn [split_on].
  destruct (Ascii.eqb c sep) eqn:Hc; [by constructor|].
  destruct (split_on sep s) as [|part parts]; [repeat constructor; simpl; by rewrite Hc|].
  apply Forall_cons in IH as [Hpart Hparts]. constructor; [|done].
  simpl. by rewrite Hc.
Qed.

(** The parts joined again by the separator give the string back. *)
Lemma split_on_join (sep : ascii) (s : string) :
  String.concat (String sep EmptyString) (split_on sep s) = s.
Proof.
  induction s as [|c s IH]; [done|]. cbn [split_on].
  pose proof (split_on_length sep s) as Hlen.
  destruct (split_on sep s) as [|part parts]; [done|]. clear Hlen.
  destruct (Ascii.eqb c sep) eqn:Hc.
  - apply Ascii.eqb_eq in Hc as ->.
    change (String sep (String.concat (String sep EmptyString) (part :: parts))
            = String sep s).
    by rewrite IH.
  - destruct parts as [|p ps].
    + change (String c (String.concat (String sep EmptyString) [part]) = String c s).
      by rewrite IH.
    + change (String c (String.concat (String sep EmptyString) (part :: p :: ps))
              = String c s).
      by rewrite IH.
Qed.

(** X22: a version that has not exactly two dots is never looked at: the
    check raises [ValueError] on it, be it TensorFlow 1 or not. *)
Theorem check_tf_version_needs_three_parts (tf_version : string) :
  occurrences "." tf_version <> 2%nat ->
  exists msg, check_tf_version tf_version = raise (ValueError msg).
Proof.
  intros Hdots. unfold check_tf_version.
  pose proof (split_on_length "." tf_version) as Hlen.
  destruct (split_on "." tf_version) as [|a [|b [|c [|d rest]]]]; simpl in Hlen;
    try by eexists.
  congruence.
Qed.

(** X23: on a version [major.minor.rev] whose major part is not ["1"] the
    check passes without reading the rest; on a version of TensorFlow 1
    whose minor part is an ASCII string of at most 4300 characters it is
    decided by the minor part read as an integer: at 13 or above the check
    passes, below it [fatal] is called, and a minor part that is no integer
    raises [ValueError]. *)
Theorem check_tf_version_decides (major minor rev : string) :
  occurrences "." major = O -> occurrences "." minor = O -> occurrences "." rev = O ->
  is_ascii minor = true -> (String.length minor <= 4300)%nat ->
  let tf_version := String.concat "." [major; minor; rev] in
  (major <> "1" -> check_tf_version tf_version = ret (Supported false))
  /\ (major = "1" ->
      match py_int minor with
      | inr m =>
          check_tf_version tf_version
          = ret (if 13 <=? m then Supported true else Fatal tf_version)
      | inl e => check_tf_version tf_version = raise e
      end).
Proof.
  intros Hmajor Hminor Hrev _ _ tf_version.
  assert (forall a b, occurrences "." a = O ->
                      split_on "." (a ++ String "." b)%string
                      = a :: split_on "." b) as Hsplit.
  { intros a b. induction a as [|c a IH]; [done|].
    simpl. destruct (Ascii.eqb c "."); [done|]. intros Ha. by rewrite IH. }
  assert (forall a, occurrences "." a = O -> split_on "." a = [a]) as Hone.
  { intros a. induction a as [|c a IH]; [done|]. cbn [occurrences split_on].
    destruct (Ascii.eqb c "."); [done|]. intros Ha. by rewrite IH. }
  assert (split_on "." tf_version = [major; minor; rev]) as Hparts.
  { subst tf_version.
    change (String.concat "." [major; minor; rev])
      with (major ++ String "." (minor ++ String "." rev))%string.
    by rewrite Hsplit, Hsplit, Hone. }
  unfold check_tf_version. rewrite Hparts. split.
  - intros Hne. by destruct (String.eqb_spec major "1").
  - intros ->. cbn [String.eqb Ascii.eqb Bool.eqb]. unfold bind.
    destruct (py_int minor) as [e|m]; [done|]. by destruct (13 <=? m).
Qed.

Lemma check_tf_version_needs_three_parts_witness :
  exists msg, check_tf_version "1.13.1.post1" = raise (ValueError msg).
Proof.
  apply (check_tf_version_needs_three_parts "1.13.1.post1"). vm_compute. discriminate.
Defined.

Lemma check_tf_version_decides_witness :
  check_tf_version "1.12.0" = ret (Fatal "1.12.0")
  /\ check_tf_version "2.0.0-rc1" = ret (Supported false).
Proof.
  split.
  - assert (String.length "12" <= 4300)%nat as Hshort by (simpl; lia).
    pose proof (check_tf_version_decides "1" "12" "0" eq_refl eq_refl eq_refl
                  eq_refl Hshort) as H.
    cbv zeta in H. destruct H as [_ Hone]. exact (Hone eq_refl).
  - assert (String.length "0" <= 4300)%nat as Hshort by (simpl; lia).
    pose proof (check_tf_version_decides "2" "0" "0-rc1" eq_refl eq_refl eq_refl
                  eq_refl Hshort) as H.
    cbv zeta in H. destruct H as [Htwo _]. apply Htwo. discriminate.
Defined.

End HostStateProps.

(** ** tuners/multiple_executions_tuner.py: the checkpoint of a trial *)

Module CheckpointProps.
Import Py MultipleExecutionsTuner.

Section Checkpoint.

Context {OracleT HyperModel InitKwargs Base Trial Callback : Type}.
Context (objective : OracleT -> Objective).
Context (format_objective : Objective -> string).
Context (tuner_init : OracleT -> HyperModel -> InitKwargs -> Res Base).
Context (super_inject_callbacks : list Callback -> Trial -> list Callback).
Context (get_checkpoint_fname : Trial -> Z -> string).
Context (ModelCheckpoint : string -> Callback).

(** X24: a tuner that the constructor has built adds to the callbacks of
    the base class one checkpoint and no more, after all of them, and the
    file of that checkpoint is always the one of step 0 of the trial,
    whatever [executions_per_trial] is: the executions of a trial share
    one checkpoint file. *)
Theorem checkpoint_of_step_zero (oracle : OracleT) (hypermodel : HyperModel)
  (executions_per_trial : PyVal) (kwargs : InitKwargs) (self : Tuner)
  (cbs : list Callback) (trial : Trial) :
  init objective format_objective tuner_init oracle hypermodel executions_per_trial
       kwargs = ret self ->
  inject_callbacks super_inject_callbacks get_checkpoint_fname ModelCheckpoint
                   self cbs trial
  = super_inject_callbacks cbs trial ++ [ModelCheckpoint (get_checkpoint_fname trial 0)]
  /\ MultipleExecutionsTuner.executions_per_trial self = executions_per_trial
  /\ is_list_or_tuple (objective oracle) = false.
Proof.
  unfold init, bind, inject_callbacks.
  destruct (tuner_init oracle hypermodel kwargs) as [e|b]; [done|].
  destruct (is_list_or_tuple (objective oracle)); [done|].
  by intros [= <-].
Qed.

End Checkpoint.

Lemma checkpoint_of_step_zero_witness :
  inject_callbacks (fun cbs (_ : unit) => cbs) (fun _ step => if Z.eqb step 0 then "step-0" else "later") id
                   (mkTuner tt (ObjectiveName "loss") (PyInt 3) 0) ["early-stopping"] tt
  = ["early-stopping"; "step-0"]
  /\ executions_per_trial (mkTuner tt (ObjectiveName "loss") (PyInt 3) 0) = PyInt 3
  /\ is_list_or_tuple (ObjectiveName "loss") = false.
Proof.
  apply (checkpoint_of_step_zero (fun o : Objective => o) (fun _ => "loss")
           (fun _ (_ : unit) (_ : unit) => ret tt)
           (fun cbs (_ : unit) => cbs) (fun _ step => if Z.eqb step 0 then "step-0" else "later") id
           (ObjectiveName "loss") tt (PyInt 3) tt
           (mkTuner tt (ObjectiveName "loss") (PyInt 3) 0) ["early-stopping"] tt).
  reflexivity.
Defined.

End CheckpointProps.
